(** * filewatcher.py: snapshot and drift detection

    A shallow embedding of [src/filewatcher.py] (class [FileWatcher] with its
    methods [init], [check] and [summarize], and the tail of [main]) together
    with the properties of the snapshot/diff engine.

    Conventions of the embedding.
    - The script is Python 2.  Python dictionaries are finite maps
      ([gmap string _]); [data.items()] is [map_to_list], whose order stands
      for the dictionary's iteration order.
    - Floating-point timestamps are IEEE-754 values ([spec_float]) compared
      with [SFeqb]; the comparison [dt != values["last_modif"]] follows
      Python 2's rules for mixed operands.
    - The operating system is a record [world]: regular files by path, the
      sets of paths on which a system call is refused, and the clock.  Paths
      are compared as strings, the way the script compares them.
    - Methods run in a state-and-exception monad [M]; the state holds the
      watcher object, the world and the output produced so far (log records
      and printed lines).
    - Functions of other packages ([json], [time], [pyxmaxlibs.helpers]) are
      the fields of the class [Runtime]; nothing is assumed about them
      unless a statement says so.
    - Line 207 of the source ([TODO TODO TODO ...]) is a placeholder and has
      no counterpart here: [init] is embedded as the statements around it. *)

From Stdlib Require Import ZArith.
From Stdlib.Floats Require Import SpecFloat.
From stdpp Require Import gmap strings list fin_maps pretty.

Set Default Proof Using "Type".
#[local] Set Warnings "-register-all".

(** ** Values *)

(** What [json.load] can return. *)
Inductive json : Type :=
  | JNull
  | JBool (b : bool)
  | JInt (z : Z)
  | JFloat (f : spec_float)
  | JStr (s : string)
  | JList (l : list json)
  | JDict (d : gmap string json).

Inductive exn_class :=
  | OSError | IOError | ValueError | KeyError | TypeError | AttributeError
  | OtherError.

Record exn := Exn { exn_cls : exn_class; exn_msg : string }.

Inductive result (A : Type) : Type :=
  | Return (a : A)
  | Raise (e : exn).
Arguments Return {A} a.
Arguments Raise {A} e.

#[global] Instance exn_class_eq_dec : EqDecision exn_class.
Proof. solve_decision. Defined.

(** ** The operating system *)

Record file := File { f_mtime : spec_float; f_body : string }.

Record world := World {
  w_fs : gmap string file;      (* regular files, by path *)
  w_nostat : gset string;       (* stat() is refused on these paths *)
  w_noread : gset string;       (* open(p) for reading is refused *)
  w_nowrite : gset string;      (* open(p, 'w') is refused *)
  w_norename : gset string;     (* rename() of these paths is refused *)
  w_clock : spec_float          (* time.time() *)
}.

Definition set_fs (w : world) (fs : gmap string file) : world :=
  World fs (w_nostat w) (w_noread w) (w_nowrite w) (w_norename w) (w_clock w).

(** [os.stat(p).st_mtime], as [os.path.getmtime] reads it. *)
Definition os_path_getmtime (w : world) (p : string) : result spec_float :=
  if decide (p ∈ w_nostat w) then Raise (Exn OSError "Permission denied")
  else match w_fs w !! p with
       | Some f => Return (f_mtime f)
       | None => Raise (Exn OSError "No such file or directory")
       end.

(** [os.path.exists]: true when [os.stat] succeeds. *)
Definition os_path_exists (w : world) (p : string) : bool :=
  match os_path_getmtime w p with
  | Return _ => true
  | Raise _ => false
  end.

Definition os_rename (w : world) (src dst : string) : result world :=
  match w_fs w !! src with
  | None => Raise (Exn OSError "No such file or directory")
  | Some f =>
      if decide (src ∈ w_norename w) then Raise (Exn OSError "Permission denied")
      else Return (set_fs w (<[dst := f]> (delete src (w_fs w))))
  end.

(** [open(p).read()] *)
Definition file_read (w : world) (p : string) : result string :=
  if decide (p ∈ w_noread w) then Raise (Exn IOError "Permission denied")
  else match w_fs w !! p with
       | Some f => Return (f_body f)
       | None => Raise (Exn IOError "No such file or directory")
       end.

(** [open(p, 'w')]: creates or truncates. *)
Definition file_open_w (w : world) (p : string) : result world :=
  if decide (p ∈ w_nowrite w) then Raise (Exn IOError "Permission denied")
  else Return (set_fs w (<[p := File (w_clock w) EmptyString]> (w_fs w))).

(** [f.write(s)] on a file opened at [p]. *)
Definition file_write (w : world) (p s : string) : world :=
  let old := match w_fs w !! p with Some f => f_body f | None => EmptyString end in
  set_fs w (<[p := File (w_clock w) (old +:+ s)]> (w_fs w)).

(** ** Functions of other packages *)

Class Runtime := {
  (* json.dump(obj, fp): the text it writes *)
  json_dump : json → string;
  (* json.load(fp), on the text of the file *)
  json_load : string → result json;
  (* helpers.get_files(path=.., file_mask=.., recursive=True) *)
  get_files : world → string → list string → result (list string);
  (* str(x) for a float *)
  float_str : spec_float → string;
  (* time.strftime("%Y-%m-%d %H:%M:%S", time.localtime(dt)) *)
  strftime_local : spec_float → string;
  (* str(data) for the dictionary [data] *)
  dict_str : json → string
}.

(** ** Python operators used by the script *)

(** [x == z] for a float [x] and an integer [z]: the values are compared
    exactly. *)
Definition SFeqb_Z (x : spec_float) (z : Z) : bool :=
  match x with
  | S754_zero _ => (z =? 0)%Z
  | S754_finite s m e =>
      let v := if s then Z.neg m else Z.pos m in
      if (0 <=? e)%Z then (z =? v * 2 ^ e)%Z else (z * 2 ^ (- e) =? v)%Z
  | _ => false
  end.

(** [x == v] for a float [x]: numbers compare by value ([True] is 1,
    [False] is 0), anything else is unequal to a float. *)
Definition py_float_eq (x : spec_float) (v : json) : bool :=
  match v with
  | JFloat y => SFeqb x y
  | JInt z => SFeqb_Z x z
  | JBool b => SFeqb_Z x (if b then 1 else 0)
  | _ => false
  end.

(** [x != v] *)
Definition py_float_ne (x : spec_float) (v : json) : bool :=
  negb (py_float_eq x v).

(** [v[key]] for a string [key] *)
Definition py_getitem (v : json) (key : string) : result json :=
  match v with
  | JDict d =>
      match d !! key with
      | Some x => Return x
      | None => Raise (Exn KeyError key)
      end
  | JList _ => Raise (Exn TypeError "list indices must be integers, not str")
  | JStr _ => Raise (Exn TypeError "string indices must be integers")
  | _ => Raise (Exn TypeError "object has no attribute '__getitem__'")
  end.

(** [v.items()] *)
Definition py_items (v : json) : result (list (string * json)) :=
  match v with
  | JDict d => Return (map_to_list d)
  | _ => Raise (Exn AttributeError "object has no attribute 'items'")
  end.

(** [v.keys()] *)
Definition py_keys (v : json) : result (list string) :=
  match v with
  | JDict d => Return (map_to_list d).*1
  | _ => Raise (Exn AttributeError "object has no attribute 'keys'")
  end.

(** [n * s] *)
Fixpoint py_str_mul (n : nat) (s : string) : string :=
  match n with
  | O => EmptyString
  | S k => s +:+ py_str_mul k s
  end.

Definition nl : string := String (Ascii.ascii_of_nat 10) EmptyString.

(** ** The watcher object and the machine state *)

Record Config := {
  watched_dir : string;
  database : string;
  watch_masks : list string;
  ignore_list : list string
}.

Record FileWatcher := {
  config : Config;
  _modified : list string;
  _removed : list string;
  _added : list string
}.

(** [FileWatcher.__init__] *)
Definition FileWatcher_new (cfg : Config) : FileWatcher :=
  {| config := cfg; _modified := []; _removed := []; _added := [] |}.

Inductive level := DEBUG | INFO | WARN | ERROR.

Inductive event :=
  | Log (lv : level) (msg : string)   (* a record handed to the logger *)
  | Stdout (text : string).           (* one [print] statement *)

Record state := State {
  st_self : FileWatcher;
  st_world : world;
  st_out : list event
}.

Definition M (A : Type) : Type := state → result A * state.

Definition ret {A} (a : A) : M A := λ st, (Return a, st).

Definition bind {A B} (m : M A) (k : A → M B) : M B :=
  λ st, match m st with
        | (Return a, st') => k a st'
        | (Raise e, st') => (Raise e, st')
        end.

Notation "x <- m ;; k" := (bind m (λ x, k))
  (at level 100, m at next level, right associativity).
Notation "m ;;; k" := (bind m (λ _, k))
  (at level 100, right associativity).

Definition raise {A} (e : exn) : M A := λ st, (Raise e, st).

Definition lift {A} (r : result A) : M A := λ st, (r, st).

(** [try: m  except cls: h] *)
Definition try_except {A} (m : M A) (cls : exn_class) (h : exn → M A) : M A :=
  λ st, match m st with
        | (Raise e, st') =>
            if decide (exn_cls e = cls) then h e st' else (Raise e, st')
        | r => r
        end.

(** [try: m  except Exception, ex: h] *)
Definition try_except_all {A} (m : M A) (h : exn → M A) : M A :=
  λ st, match m st with
        | (Raise e, st') => h e st'
        | r => r
        end.

Fixpoint for_each {A} (l : list A) (body : A → M unit) : M unit :=
  match l with
  | [] => ret tt
  | x :: l' => body x ;;; for_each l' body
  end.

Definition emit (e : event) : M unit :=
  λ st, (Return tt, State (st_self st) (st_world st) (st_out st ++ [e])).

Definition log (lv : level) (msg : string) : M unit := emit (Log lv msg).
Definition print (text : string) : M unit := emit (Stdout text).

Definition get_self : M FileWatcher := λ st, (Return (st_self st), st).
Definition get_world : M world := λ st, (Return (st_world st), st).
Definition put_self (s : FileWatcher) : M unit :=
  λ st, (Return tt, State s (st_world st) (st_out st)).
Definition put_world (w : world) : M unit :=
  λ st, (Return tt, State (st_self st) w (st_out st)).

(** A system call that reads the world. *)
Definition sys {A} (f : world → result A) : M A :=
  w <- get_world ;; lift (f w).

(** A system call that changes the world. *)
Definition sys_upd (f : world → result world) : M unit :=
  w <- get_world ;; w' <- lift (f w) ;; put_world w'.

(** [self._modified.append(x)] and its siblings *)
Definition append_modified (x : string) : M unit :=
  s <- get_self ;;
  put_self {| config := config s; _modified := _modified s ++ [x];
              _removed := _removed s; _added := _added s |}.

Definition append_removed (x : string) : M unit :=
  s <- get_self ;;
  put_self {| config := config s; _modified := _modified s;
              _removed := _removed s ++ [x]; _added := _added s |}.

Definition append_added (x : string) : M unit :=
  s <- get_self ;;
  put_self {| config := config s; _modified := _modified s;
              _removed := _removed s; _added := _added s ++ [x] |}.

(** ** The program *)

Section Program.
Context {RT : Runtime}.

Definition tempfile : string := "tempfiledata.txt".

(** The name under which [init] keeps the previous database file. *)
Definition backup_name (db_file : string) (t : spec_float) : string :=
  db_file +:+ ".backup." +:+ float_str t.

(** The record [dict(last_modif=dt, last_modif_human=human)]. *)
Definition file_record (dt : spec_float) (human : string) : json :=
  JDict (<["last_modif" := JFloat dt]>
         (<["last_modif_human" := JStr human]> ∅)).

(** Lines 196-201: the loop of [init] that fills [data]. *)
Fixpoint init_collect (ignore : list string) (file_names : list string)
    (data : gmap string json) : M (gmap string json) :=
  match file_names with
  | [] => ret data
  | name :: rest =>
      if bool_decide (name ∈ ignore) then init_collect ignore rest data
      else
        dt <- sys (λ w, os_path_getmtime w name) ;;
        let human := strftime_local dt in
        init_collect ignore rest (<[name := file_record dt human]> data)
  end.

(** Lines 184-188: an existing database file is moved aside. *)
Definition init_backup (db_file : string) : M unit :=
  w <- get_world ;;
  if os_path_exists w db_file then
    sys_upd (λ w, os_rename w db_file (backup_name db_file (w_clock w))) ;;;
    log WARN ("Database file '" +:+ db_file +:+ "' exists, backupped.")
  else ret tt.

(** Lines 211-219: the database file is written. *)
Definition init_store (db_file : string) (data : gmap string json) : M unit :=
  try_except
    (sys_upd (λ w, file_open_w w db_file) ;;;
     sys_upd (λ w, Return (file_write w db_file (json_dump (JDict data)))) ;;;
     log INFO ("Finished, database file written: '" +:+ db_file +:+ "'"))
    IOError
    (λ ex, log ERROR ("Could not write data into '" +:+ db_file +:+
                      "', reason: " +:+ exn_msg ex +:+ "'")).

(** [FileWatcher.init] *)
Definition init : M (option Z) :=
  self <- get_self ;;
  let cfg := config self in
  log INFO "Performing initialization ..." ;;;
  log INFO ("Processing '" +:+ watched_dir cfg +:+ "' directory ...") ;;;
  let db_file := database cfg in
  init_backup db_file ;;;
  file_names <- sys (λ w, get_files w (watched_dir cfg) (watch_masks cfg)) ;;
  data <- init_collect (ignore_list cfg) file_names ∅ ;;
  log INFO ("Storing timestamp info about " +:+ pretty (size data) +:+
            " files ...") ;;;
  sys_upd (λ w, file_open_w w tempfile) ;;;
  sys_upd (λ w, Return (file_write w tempfile (dict_str (JDict data)))) ;;;
  init_store db_file data ;;;
  ret None.

(** Lines 232-235: the body of the [try] that reads the database file. *)
Definition load_database (db_file : string) : M json :=
  text <- sys (λ w, file_read w db_file) ;;
  lift (json_load text).

(** Lines 242-247: one round of the loop over [data.items()]. *)
Definition check_entry (item : string * json) : M unit :=
  let '(file_name, values) := item in
  try_except
    (dt <- sys (λ w, os_path_getmtime w file_name) ;;
     recorded <- lift (py_getitem values "last_modif") ;;
     if py_float_ne dt recorded then append_modified file_name else ret tt)
    OSError
    (λ _, append_removed file_name).

(** Lines 254-258: one round of the loop over [curr_file_names]. *)
Definition check_current (ignore : list string) (data : json)
    (file_name : string) : M unit :=
  if bool_decide (file_name ∈ ignore) then ret tt
  else
    keys <- lift (py_keys data) ;;
    if bool_decide (file_name ∉ keys) then append_added file_name else ret tt.

(** The inner function [printer] of [summarize]. *)
Definition printer (title : string) (whats : list string) : M unit :=
  print title ;;;
  for_each whats (λ what, print ("    " +:+ what)) ;;;
  print nl.

(** [FileWatcher.summarize] *)
Definition summarize : M unit :=
  print (nl +:+ py_str_mul 80 "=") ;;;
  print ("Summary:" +:+ nl) ;;;
  self <- get_self ;;
  printer "Removed:" (_removed self) ;;;
  printer "New:" (_added self) ;;;
  printer "Modified:" (_modified self).

(** Lines 241-259: what [check] does once the database is loaded. *)
Definition check_loaded (data : json) : M (option Z) :=
  self <- get_self ;;
  let cfg := config self in
  items <- lift (py_items data) ;;
  for_each items check_entry ;;;
  curr_file_names <-
    sys (λ w, get_files w (watched_dir cfg) (watch_masks cfg)) ;;
  for_each curr_file_names (check_current (ignore_list cfg) data) ;;;
  summarize ;;;
  ret None.

(** [FileWatcher.check] *)
Definition check : M (option Z) :=
  self <- get_self ;;
  let cfg := config self in
  log INFO ("Performing check ... (database file: '" +:+ database cfg +:+
            "')") ;;;
  loaded <- try_except_all
              (data <- load_database (database cfg) ;; ret (inl data))
              (λ ex, log ERROR ("Could not read database file, reason: "
                                +:+ exn_msg ex) ;;;
                     ret (inr 1%Z)) ;;
  match loaded with
  | inr code => ret (Some code)
  | inl data => check_loaded data
  end.

(** ** The process *)

Inductive action := ActInit | ActCheck.

Inductive termination :=
  | Exit (code : Z)         (* normal end, or [sys.exit(code)] *)
  | Traceback (e : exn).    (* an exception nobody caught *)


(** Lines 282-286 of [main], entered with the configuration that command
    line and configuration file produced. *)
Definition main (act : action) (cfg : Config) (w : world)
    : termination * state :=
  let st0 := State (FileWatcher_new cfg) w [] in
  let method := match act with ActInit => init | ActCheck => check end in
  match (ret_val <- method ;;
         log INFO "Finished." ;;;
         ret ret_val) st0 with
  | (Return (Some code), st) =>
      if decide (code = 0%Z) then (Exit 0, st) else (Exit code, st)
  | (Return None, st) => (Exit 0, st)
  | (Raise e, st) => (Traceback e, st)
  end.

End Program.

(** ** Notions used in the statements *)

Section Notions.
Context {RT : Runtime}.

(** The state [main] hands to a method. *)
Definition start (cfg : Config) (w : world) : state :=
  State (FileWatcher_new cfg) w [].

(** The same state with other result lists. *)
Definition with_lists (st : state) (m r a : list string) : state :=
  State {| config := config (st_self st); _modified := m;
           _removed := r; _added := a |}
        (st_world st) (st_out st).

Definition with_out (st : state) (o : list event) : state :=
  State (st_self st) (st_world st) o.

Definition modified (st : state) : list string := _modified (st_self st).
Definition removed (st : state) : list string := _removed (st_self st).
Definition added (st : state) : list string := _added (st_self st).

(** What the loop finds: the paths marked modified, the paths marked
    removed, and the exception that stopped it, if any. *)
Fixpoint diff_entries (w : world) (items : list (string * json))
    : list string * list string * option exn :=
  match items with
  | [] => ([], [], None)
  | (p, v) :: rest =>
      match os_path_getmtime w p with
      | Raise _ =>
          let '(ms, rs, ex) := diff_entries w rest in (ms, p :: rs, ex)
      | Return dt =>
          match py_getitem v "last_modif" with
          | Raise e => ([], [], Some e)
          | Return recorded =>
              let '(ms, rs, ex) := diff_entries w rest in
              if py_float_ne dt recorded then (p :: ms, rs, ex) else (ms, rs, ex)
          end
      end
  end.

Definition outcome (ex : option exn) : result unit :=
  match ex with
  | None => Return tt
  | Some e => Raise e
  end.

(** The scanned files that [check] reports as new. *)
Definition new_files (ignore keys names : list string) : list string :=
  filter (λ n, (n ∉ ignore) ∧ (n ∉ keys)) names.

Definition printer_lines (title : string) (whats : list string) : list event :=
  Stdout title :: ((λ what, Stdout ("    " +:+ what)) <$> whats) ++ [Stdout nl].

Definition summary_lines (self : FileWatcher) : list event :=
  [Stdout (nl +:+ py_str_mul 80 "="); Stdout ("Summary:" +:+ nl)]
  ++ printer_lines "Removed:" (_removed self)
  ++ printer_lines "New:" (_added self)
  ++ printer_lines "Modified:" (_modified self).


(** The dictionary the loop of [init] builds. *)
Fixpoint inventory (w : world) (ignore names : list string)
    (data : gmap string json) : result (gmap string json) :=
  match names with
  | [] => Return data
  | name :: rest =>
      if bool_decide (name ∈ ignore) then inventory w ignore rest data
      else match os_path_getmtime w name with
           | Return dt =>
               inventory w ignore rest
                 (<[name := file_record dt (strftime_local dt)]> data)
           | Raise e => Raise e
           end
  end.

(** Two floats denote the same number: neither is a NaN, and they are the
    same float or both zero. *)
Definition same_float (x y : spec_float) : Prop :=
  match x, y with
  | S754_nan, _ | _, S754_nan => False
  | S754_zero _, S754_zero _ => True
  | _, _ => x = y
  end.

(** Every readable file of the database has a record that gives
    [last_modif]. *)
Definition records_usable (w : world) (d : gmap string json) : Prop :=
  ∀ q u dt, d !! q = Some u → os_path_getmtime w q = Return dt →
            ∃ recorded, py_getitem u "last_modif" = Return recorded.

(** The check that every record gives [last_modif]. *)
Definition records_checked (d : gmap string json) : bool :=
  forallb (λ kv, match py_getitem kv.2 "last_modif" with
                 | Return _ => true
                 | Raise _ => false
                 end) (map_to_list d).


End Notions.

(** ** A runtime to run the program on *)

Module Demo.

Definition dq : string := String (Ascii.ascii_of_nat 34) EmptyString.

Fixpoint chars (s : string) : list Ascii.ascii :=
  match s with
  | EmptyString => []
  | String c s' => c :: chars s'
  end.

(** The part of a path after its last slash. *)
Fixpoint basename_aux (cs acc : list Ascii.ascii) : list Ascii.ascii :=
  match cs with
  | [] => acc
  | c :: cs' =>
      if Ascii.eqb c (Ascii.ascii_of_nat 47) then basename_aux cs' []
      else basename_aux cs' (acc ++ [c])
  end.

Definition basename (p : string) : list Ascii.ascii := basename_aux (chars p) [].

(** A character class of a pattern, read after its opening bracket: whether
    it is negated, its members, and the pattern after the closing bracket.
    A closing bracket right after the opening one (or after the [!]) is a
    member; a class that is never closed is no class. *)
Fixpoint class_end (pat members : list Ascii.ascii)
    : option (list Ascii.ascii * list Ascii.ascii) :=
  match pat with
  | [] => None
  | c :: rest =>
      if Ascii.eqb c (Ascii.ascii_of_nat 93) then Some (members, rest)
      else class_end rest (members ++ [c])
  end.

Definition parse_class (pat : list Ascii.ascii)
    : option (bool * list Ascii.ascii * list Ascii.ascii) :=
  let '(negated, pat1) :=
    match pat with
    | c :: rest =>
        if Ascii.eqb c (Ascii.ascii_of_nat 33) then (true, rest) else (false, pat)
    | [] => (false, pat)
    end in
  let found :=
    match pat1 with
    | c :: rest =>
        if Ascii.eqb c (Ascii.ascii_of_nat 93) then class_end rest [c]
        else class_end pat1 []
    | [] => None
    end in
  match found with
  | Some (members, rest) => Some (negated, members, rest)
  | None => None
  end.

(** Membership in a class: single characters and ranges [a-z]. *)
Fixpoint in_class (members : list Ascii.ascii) (c : Ascii.ascii) : bool :=
  match members with
  | [] => false
  | lo :: rest =>
      match rest with
      | dash :: hi :: rest' =>
          if Ascii.eqb dash (Ascii.ascii_of_nat 45) then
            ((Ascii.nat_of_ascii lo <=? Ascii.nat_of_ascii c)
             && (Ascii.nat_of_ascii c <=? Ascii.nat_of_ascii hi))
            || in_class rest' c
          else Ascii.eqb lo c || in_class rest c
      | _ => Ascii.eqb lo c || in_class rest c
      end
  end.

(** Shell patterns: [*], [?], character classes, and characters that stand
    for themselves.  The first argument bounds the number of pattern
    elements. *)
Fixpoint glob_steps (n : nat) (pat s : list Ascii.ascii) : bool :=
  match n with
  | O => false
  | S n' =>
      match pat with
      | [] => match s with [] => true | _ => false end
      | c :: pat' =>
          let literal :=
            match s with
            | [] => false
            | d :: s' => Ascii.eqb c d && glob_steps n' pat' s'
            end in
          if Ascii.eqb c (Ascii.ascii_of_nat 42) then
            (fix skip (t : list Ascii.ascii) : bool :=
               glob_steps n' pat' t
               || match t with [] => false | _ :: t' => skip t' end) s
          else if Ascii.eqb c (Ascii.ascii_of_nat 63) then
            match s with
            | [] => false
            | _ :: s' => glob_steps n' pat' s'
            end
          else if Ascii.eqb c (Ascii.ascii_of_nat 91) then
            match parse_class pat' with
            | Some (negated, members, rest) =>
                match s with
                | [] => false
                | d :: s' =>
                    xorb negated (in_class members d) && glob_steps n' rest s'
                end
            | None => literal
            end
          else literal
      end
  end.

Definition glob (pat s : list Ascii.ascii) : bool :=
  glob_steps (S (length pat)) pat s.

(** A path lies below a directory. *)
Fixpoint last_is_slash (s : string) : bool :=
  match s with
  | EmptyString => false
  | String c EmptyString => Ascii.eqb c (Ascii.ascii_of_nat 47)
  | String _ s' => last_is_slash s'
  end.

Definition below (root p : string) : bool :=
  String.prefix (if last_is_slash root then root else root +:+ "/") p.

(** Modelled from the spec: [helpers.get_files] belongs to the package
    [pyxmaxlibs], which is not part of the sources.  Following sections 4.1
    and 4.2 of the specification, the scan yields the files below the root
    whose base name matches one of the masks, every file when there is no
    mask, and it fails when the root is no directory.  In a world of files
    by path a directory is there when a file lies below it. *)
Definition scan (w : world) (root : string) (masks : list string)
    : result (list string) :=
  let files := filter (λ p, below root p = true) (map_to_list (w_fs w)).*1 in
  match files with
  | [] => Raise (Exn OSError ("No such directory: '" +:+ root +:+ "'"))
  | _ =>
      Return (filter (λ p, masks = [] ∨
                           existsb (λ m, glob (chars m) (basename p)) masks = true)
                     files)
  end.

Definition show_float (f : spec_float) : string :=
  match f with
  | S754_zero s => if s then "-0.0" else "0.0"
  | S754_infinity s => if s then "-Infinity" else "Infinity"
  | S754_nan => "NaN"
  | S754_finite s m e =>
      (if s then "-" else EmptyString) +:+ pretty (Z.pos m) +:+ "p" +:+ pretty e
  end.

Definition show_scalar (v : json) : string :=
  match v with
  | JNull => "null"
  | JBool b => if b then "true" else "false"
  | JInt z => pretty z
  | JFloat f => show_float f
  | JStr s => dq +:+ s +:+ dq
  | JList _ => "[...]"
  | JDict _ => "{...}"
  end.

Definition show_members (show : json → string) (d : gmap string json) : string :=
  "{" +:+ String.concat ", "
            ((λ kv, dq +:+ kv.1 +:+ dq +:+ ": " +:+ show kv.2) <$> map_to_list d)
      +:+ "}".

(** Documents are printed two levels deep, which covers a database. *)
Definition show (v : json) : string :=
  match v with
  | JDict d =>
      show_members (λ x, match x with
                         | JDict r => show_members show_scalar r
                         | _ => show_scalar x
                         end) d
  | JList [] => "[]"
  | _ => show_scalar v
  end.

(** The reader knows the documents of a catalogue and rejects other text. *)
Definition read (catalogue : list json) (text : string) : result json :=
  match List.find (λ v, String.eqb (show v) text) catalogue with
  | Some v => Return v
  | None => Raise (Exn ValueError "No JSON object could be decoded")
  end.

Definition runtime (catalogue : list json) : Runtime := {|
  json_dump := show;
  json_load := read catalogue;
  get_files := scan;
  float_str := show_float;
  strftime_local := λ f, "2012-01-01 00:00:00";
  dict_str := show
|}.

Definition secs (n : positive) : spec_float := S754_finite false n 0.

Definition mkworld (fs : list (string * file)) : world :=
  World (list_to_map fs) ∅ ∅ ∅ ∅ (secs 1000).

Definition cfg (masks ignore : list string) : Config :=
  {| watched_dir := "/d"; database := "/db.json";
     watch_masks := masks; ignore_list := ignore |}.

Definition snapshot (l : list (string * positive)) : gmap string json :=
  list_to_map
    ((λ kv, (kv.1, file_record (secs kv.2) "2012-01-01 00:00:00")) <$> l).

(** A database of three files; since then [a.txt] was touched, [c.txt]
    deleted, [b.txt] and [skip.txt] created, and the masks no longer cover
    [keep.log]. *)
Definition dictB : gmap string json :=
  snapshot [("/d/a.txt", 100); ("/d/c.txt", 50); ("/d/keep.log", 70)]%positive.

Definition filesB : list (string * file) :=
  [("/d/a.txt", File (secs 200) "a"); ("/d/b.txt", File (secs 7) "b");
   ("/d/keep.log", File (secs 70) "k"); ("/d/skip.txt", File (secs 9) "s")].

Definition worldB : world :=
  mkworld (filesB ++ [("/db.json", File (secs 5) (show (JDict dictB)))]).

Definition rtB : Runtime := runtime [JDict dictB].

Definition cfgB : Config := cfg ["*.txt"] ["/d/skip.txt"].




(** A database whose only record lacks its fields. *)
Definition dictK : gmap string json := {["/d/a.txt" := JDict ∅]}.

Definition worldK : world :=
  mkworld (filesB ++ [("/db.json", File (secs 5) (show (JDict dictK)))]).

Definition rtK : Runtime := runtime [JDict dictK].

(** The three result lists after a run of [check]. *)
Definition drift (rt : Runtime) (c : Config) (w : world)
    : list string * list string * list string :=
  let st := (main ActCheck c w).2 in
  (_added (st_self st), _removed (st_self st), _modified (st_self st)).

End Demo.

(** ** Running the monad *)

Section Runs.
Context {RT : Runtime}.

Lemma bind_Return {A B} (m : M A) (k : A → M B) st a st' :
  m st = (Return a, st') → bind m k st = k a st'.
Proof. unfold bind. by intros ->. Qed.

Lemma bind_Raise {A B} (m : M A) (k : A → M B) st e st' :
  m st = (Raise e, st') → bind m k st = (Raise e, st').
Proof. unfold bind. by intros ->. Qed.

Lemma for_each_app {A} (l1 l2 : list A) (body : A → M unit) st :
  for_each (l1 ++ l2) body st = (for_each l1 body ;;; for_each l2 body) st.
Proof.
  revert st. induction l1 as [|x l1 IH]; intros st; simpl.
  - reflexivity.
  - unfold bind. destruct (body x st) as [[[]|e] st1]; [|done].
    rewrite IH. reflexivity.
Qed.

(** *** System calls *)

Lemma getmtime_raises_OSError w p e :
  os_path_getmtime w p = Raise e → exn_cls e = OSError.
Proof.
  unfold os_path_getmtime. case_decide; [by intros [= <-]|].
  destruct (w_fs w !! p); [done|]. by intros [= <-].
Qed.

Lemma getitem_never_OSError v key e :
  py_getitem v key = Raise e → exn_cls e ≠ OSError.
Proof.
  destruct v as [| | | | | |d]; simpl; try by intros [= <-].
  destruct (d !! key); [done|]. by intros [= <-].
Qed.

Lemma getmtime_Return w p dt :
  os_path_getmtime w p = Return dt ↔
  (p ∉ w_nostat w) ∧ ∃ f, w_fs w !! p = Some f ∧ f_mtime f = dt.
Proof.
  unfold os_path_getmtime. case_decide.
  - split; [done|]. by intros [? _].
  - destruct (w_fs w !! p) as [f|].
    + split; [intros [= <-]; eauto|]. by intros (_ & ? & [= <-] & <-).
    + split; [done|]. by intros (_ & ? & ? & _).
Qed.

(** *** The loop over the entries of the database *)

Lemma check_entry_run p v st :
  check_entry (p, v) st =
    match os_path_getmtime (st_world st) p with
    | Raise _ =>
        (Return tt, with_lists st (modified st) (removed st ++ [p]) (added st))
    | Return dt =>
        match py_getitem v "last_modif" with
        | Raise e => (Raise e, st)
        | Return recorded =>
            if py_float_ne dt recorded
            then (Return tt,
                  with_lists st (modified st ++ [p]) (removed st) (added st))
            else (Return tt, st)
        end
    end.
Proof.
  unfold check_entry, try_except, sys, lift, get_world, bind. cbv beta.
  destruct (os_path_getmtime (st_world st) p) as [dt|e] eqn:Hst.
  - destruct (py_getitem v "last_modif") as [r|e] eqn:Hget.
    + destruct (py_float_ne dt r); reflexivity.
    + apply getitem_never_OSError in Hget. by case_decide.
  - apply getmtime_raises_OSError in Hst. by case_decide.
Qed.

Lemma with_lists_same st : with_lists st (modified st) (removed st) (added st) = st.
Proof. by destruct st as [[]]. Qed.

Lemma check_entries_run items st :
  for_each items check_entry st =
    let '(ms, rs, ex) := diff_entries (st_world st) items in
    (outcome ex,
     with_lists st (modified st ++ ms) (removed st ++ rs) (added st)).
Proof.
  revert st. induction items as [|[p v] items IH]; intros st.
  - simpl. by rewrite !app_nil_r, with_lists_same.
  - cbn [for_each diff_entries]. unfold bind. rewrite check_entry_run.
    destruct (os_path_getmtime (st_world st) p) as [dt|e].
    + destruct (py_getitem v "last_modif") as [r|e].
      * destruct (py_float_ne dt r); rewrite IH; cbn [with_lists st_world];
          destruct (diff_entries (st_world st) items) as [[ms rs] ex];
          [|done].
        unfold with_lists, modified, removed, added. simpl.
        by rewrite <-app_assoc.
      * simpl. by rewrite !app_nil_r, with_lists_same.
    + rewrite IH. cbn [with_lists st_world].
      destruct (diff_entries (st_world st) items) as [[ms rs] ex].
      unfold with_lists, modified, removed, added. simpl.
      by rewrite <-app_assoc.
Qed.

Lemma diff_entries_modified w items ms rs ex p :
  diff_entries w items = (ms, rs, ex) → p ∈ ms →
  ∃ v dt recorded,
    (p, v) ∈ items ∧ os_path_getmtime w p = Return dt ∧
    py_getitem v "last_modif" = Return recorded ∧
    py_float_ne dt recorded = true.
Proof.
  revert ms rs ex. induction items as [|[q v] items IH]; intros ms rs ex.
  - intros [= <- <- <-] Hp. by apply elem_of_nil in Hp.
  - cbn [diff_entries].
    destruct (os_path_getmtime w q) as [dt|e] eqn:Hst.
    + destruct (py_getitem v "last_modif") as [r|e] eqn:Hget.
      * destruct (diff_entries w items) as [[ms' rs'] ex'].
        destruct (py_float_ne dt r) eqn:Hne; intros [= <- <- <-] Hp.
        -- apply elem_of_cons in Hp as [->|Hp].
           ++ exists v, dt, r. split_and!; auto. left.
           ++ destruct (IH _ _ _ eq_refl Hp) as (v' & dt' & r' & ? & ?).
              exists v', dt', r'. split; [by right|done].
        -- destruct (IH _ _ _ eq_refl Hp) as (v' & dt' & r' & ? & ?).
           exists v', dt', r'. split; [by right|done].
      * intros [= <- <- <-] Hp. by apply elem_of_nil in Hp.
    + destruct (diff_entries w items) as [[ms' rs'] ex'].
      intros [= <- <- <-] Hp.
      destruct (IH _ _ _ eq_refl Hp) as (v' & dt' & r' & ? & ?).
      exists v', dt', r'. split; [by right|done].
Qed.

Lemma diff_entries_removed w items ms rs ex p :
  diff_entries w items = (ms, rs, ex) → p ∈ rs →
  (∃ v, (p, v) ∈ items) ∧ ∃ e, os_path_getmtime w p = Raise e.
Proof.
  revert ms rs ex. induction items as [|[q v] items IH]; intros ms rs ex.
  - intros [= <- <- <-] Hp. by apply elem_of_nil in Hp.
  - cbn [diff_entries].
    destruct (os_path_getmtime w q) as [dt|e] eqn:Hst.
    + destruct (py_getitem v "last_modif") as [r|e'].
      * destruct (diff_entries w items) as [[ms' rs'] ex'].
        destruct (py_float_ne dt r); intros [= <- <- <-] Hp;
          destruct (IH _ _ _ eq_refl Hp) as [[v' ?] ?];
          (split; [exists v'; by right|done]).
      * intros [= <- <- <-] Hp. by apply elem_of_nil in Hp.
    + destruct (diff_entries w items) as [[ms' rs'] ex'].
      intros [= <- <- <-] Hp. apply elem_of_cons in Hp as [->|Hp].
      * split; [exists v; left|eauto].
      * destruct (IH _ _ _ eq_refl Hp) as [[v' ?] ?].
        split; [exists v'; by right|done].
Qed.

(** When the loop runs to its end, every entry got its mark. *)
Lemma diff_entries_complete w items ms rs p v :
  diff_entries w items = (ms, rs, None) → (p, v) ∈ items →
  match os_path_getmtime w p with
  | Raise _ => p ∈ rs
  | Return dt =>
      ∃ recorded, py_getitem v "last_modif" = Return recorded ∧
                  (py_float_ne dt recorded = true → p ∈ ms)
  end.
Proof.
  revert ms rs. induction items as [|[q u] items IH]; intros ms rs.
  - intros _ Hp. by apply elem_of_nil in Hp.
  - cbn [diff_entries]. intros Hd Hp.
    destruct (os_path_getmtime w q) as [dt|e] eqn:Hst.
    + destruct (py_getitem u "last_modif") as [r|e'] eqn:Hget; [|done].
      destruct (diff_entries w items) as [[ms' rs'] ex'].
      apply elem_of_cons in Hp as [[= -> ->]|Hp].
      * rewrite Hst. exists r. split; [done|]. intros Hne. rewrite Hne in Hd.
        injection Hd as <- <- ->. left.
      * assert (ex' = None) as -> by (destruct (py_float_ne dt r); congruence).
        specialize (IH _ _ eq_refl Hp).
        destruct (os_path_getmtime w p) as [dt'|].
        -- destruct IH as (r' & ? & Hin). exists r'. split; [done|].
           intros Hne. specialize (Hin Hne).
           destruct (py_float_ne dt r); injection Hd as <- <-; [by right|done].
        -- destruct (py_float_ne dt r); by injection Hd as <- <-.
    + destruct (diff_entries w items) as [[ms' rs'] ex'].
      injection Hd as <- <- ->.
      apply elem_of_cons in Hp as [[= -> ->]|Hp].
      * rewrite Hst. left.
      * specialize (IH _ _ eq_refl Hp).
        destruct (os_path_getmtime w p) as [dt'|]; [done|by right].
Qed.

(** The loop stops at an entry whose file can be read and whose record
    gives no [last_modif]; without such an entry it runs to its end. *)
Lemma diff_entries_stops w items ms rs e :
  diff_entries w items = (ms, rs, Some e) →
  ∃ p v dt, (p, v) ∈ items ∧ os_path_getmtime w p = Return dt ∧
            py_getitem v "last_modif" = Raise e.
Proof.
  revert ms rs. induction items as [|[q u] items IH]; intros ms rs; [done|].
  cbn [diff_entries].
  destruct (os_path_getmtime w q) as [dt|e0] eqn:Hst.
  - destruct (py_getitem u "last_modif") as [r|e'] eqn:Hget.
    + destruct (diff_entries w items) as [[ms' rs'] ex'].
      intros Hd. assert (ex' = Some e) as ->
        by (destruct (py_float_ne dt r); congruence).
      destruct (IH _ _ eq_refl) as (p & v & dt' & ? & ?).
      exists p, v, dt'. split; [by right|done].
    + intros [= <- <- <-]. exists q, u, dt. split; [left|done].
  - destruct (diff_entries w items) as [[ms' rs'] ex'].
    intros [= <- <- ->].
    destruct (IH _ _ eq_refl) as (p & v & dt' & ? & ?).
    exists p, v, dt'. split; [by right|done].
Qed.

Lemma diff_entries_runs w items :
  (∀ p v dt, (p, v) ∈ items → os_path_getmtime w p = Return dt →
             ∃ recorded, py_getitem v "last_modif" = Return recorded) →
  ∃ ms rs, diff_entries w items = (ms, rs, None).
Proof.
  intros Hok. destruct (diff_entries w items) as [[ms rs] [e|]] eqn:Hd; [|eauto].
  destruct (diff_entries_stops _ _ _ _ _ Hd) as (p & v & dt & Hin & Hst & Hget).
  destruct (Hok _ _ _ Hin Hst) as [r Hr]. congruence.
Qed.

(** *** The loop over the scanned files *)

Lemma check_current_run ignore d names st :
  for_each names (check_current ignore (JDict d)) st =
    (Return tt,
     with_lists st (modified st) (removed st)
       (added st ++ new_files ignore (map_to_list d).*1 names)).
Proof.
  revert st. induction names as [|n names IH]; intros st.
  - simpl. unfold new_files. rewrite filter_nil, app_nil_r.
    by rewrite with_lists_same.
  - cbn [for_each]. unfold bind at 1. unfold check_current at 1.
    unfold new_files. rewrite filter_cons. fold (new_files ignore (map_to_list d).*1 names).
    case_bool_decide as Hig.
    + unfold ret. rewrite IH. rewrite decide_False by tauto. done.
    + unfold bind, lift, py_keys. case_bool_decide as Hk.
      * unfold append_added, bind, get_self, put_self. rewrite IH.
        rewrite decide_True by done.
        unfold with_lists, modified, removed, added. simpl.
        by rewrite <-app_assoc.
      * unfold ret. rewrite IH. rewrite decide_False by tauto. done.
Qed.

(** *** The summary *)

Lemma print_each_run (whats : list string) st :
  for_each whats (λ what, print ("    " +:+ what)) st =
    (Return tt,
     with_out st (st_out st ++ ((λ what, Stdout ("    " +:+ what)) <$> whats))).
Proof.
  revert st. induction whats as [|x whats IH]; intros st.
  - cbn [for_each fmap list_fmap]. unfold ret, with_out.
    rewrite app_nil_r. by destruct st.
  - cbn [for_each]. unfold bind, print, emit. rewrite IH.
    unfold with_out. cbn [st_self st_world st_out].
    by rewrite <-app_assoc.
Qed.

Lemma printer_run title whats st :
  printer title whats st =
    (Return tt, with_out st (st_out st ++ printer_lines title whats)).
Proof.
  unfold printer, bind. unfold print at 1, emit. rewrite print_each_run.
  unfold print, emit, with_out, printer_lines. cbn [st_self st_world st_out].
  by rewrite <-!app_assoc.
Qed.

Lemma summarize_run st :
  summarize st =
    (Return tt, with_out st (st_out st ++ summary_lines (st_self st))).
Proof.
  unfold summarize, bind, get_self. unfold print, emit.
  rewrite !printer_run. unfold with_out, summary_lines.
  cbn [st_self st_world st_out]. by rewrite <-!app_assoc.
Qed.

(** *** [check] as a whole *)

Lemma check_loaded_run d st :
  check_loaded (JDict d) st =
    let cfg := config (st_self st) in
    let '(ms, rs, ex) := diff_entries (st_world st) (map_to_list d) in
    let st1 := with_lists st (modified st ++ ms) (removed st ++ rs) (added st) in
    match ex with
    | Some e => (Raise e, st1)
    | None =>
        match get_files (st_world st) (watched_dir cfg) (watch_masks cfg) with
        | Raise e => (Raise e, st1)
        | Return names =>
            let st2 :=
              with_lists st1 (modified st1) (removed st1)
                (added st1 ++ new_files (ignore_list cfg) (map_to_list d).*1 names) in
            (Return None, with_out st2 (st_out st2 ++ summary_lines (st_self st2)))
        end
    end.
Proof.
  unfold check_loaded. unfold bind at 1, get_self.
  unfold bind at 1, lift, py_items. unfold bind at 1.
  rewrite check_entries_run.
  destruct (diff_entries (st_world st) (map_to_list d)) as [[ms rs] [e|]];
    cbn [outcome]; [done|].
  unfold bind at 1, sys, get_world. unfold bind at 1. cbn [with_lists st_world].
  destruct (get_files _ _ _) as [names|e]; [|done].
  unfold lift. unfold bind at 1. rewrite check_current_run.
  unfold bind. rewrite summarize_run. reflexivity.
Qed.

Lemma check_loaded_not_dict data st :
  (∀ d, data ≠ JDict d) →
  ∃ e, check_loaded data st = (Raise e, st) ∧ exn_cls e = AttributeError.
Proof.
  intros Hd. unfold check_loaded, bind, get_self, lift.
  destruct data; try (eexists; split; [reflexivity|done]). by destruct (Hd d).
Qed.

Lemma check_run st :
  check st =
    let cfg := config (st_self st) in
    let st0 :=
      with_out st (st_out st ++
        [Log INFO ("Performing check ... (database file: '" +:+
                   database cfg +:+ "')")]) in
    let failed e :=
      (Return (Some 1%Z),
       with_out st0 (st_out st0 ++
         [Log ERROR ("Could not read database file, reason: " +:+ exn_msg e)])) in
    match file_read (st_world st) (database cfg) with
    | Raise e => failed e
    | Return text =>
        match json_load text with
        | Raise e => failed e
        | Return data => check_loaded data st0
        end
    end.
Proof.
  unfold check, load_database, try_except_all, sys, lift, get_world, get_self,
    log, emit, ret, bind, with_out. cbn [st_self st_world st_out].
  destruct (file_read (st_world st) _) as [text|e]; [|done].
  by destruct (json_load text) as [data|e].
Qed.

(** *** [init] *)

Lemma init_collect_run ignore names data st :
  init_collect ignore names data st = (inventory (st_world st) ignore names data, st).
Proof.
  revert data. induction names as [|n names IH]; intros data; [done|].
  cbn [init_collect inventory]. case_bool_decide; [done|].
  unfold bind at 1, sys, get_world, lift. unfold bind at 1.
  destruct (os_path_getmtime (st_world st) n); [apply IH|done].
Qed.


Lemma init_backup_run db st :
  init_backup db st =
    let w := st_world st in
    if os_path_exists w db then
      match os_rename w db (backup_name db (w_clock w)) with
      | Return w' =>
          (Return tt,
           State (st_self st) w'
             (st_out st ++
                [Log WARN ("Database file '" +:+ db +:+ "' exists, backupped.")]))
      | Raise e => (Raise e, st)
      end
    else (Return tt, st).
Proof.
  unfold init_backup, sys_upd, lift, get_world, put_world, log, emit, ret, bind.
  cbn [st_self st_world st_out].
  destruct (os_path_exists (st_world st) db); [|done].
  by destruct (os_rename _ _ _).
Qed.

Lemma init_store_run db data st :
  init_store db data st =
    match file_open_w (st_world st) db with
    | Return w1 =>
        (Return tt,
         State (st_self st) (file_write w1 db (json_dump (JDict data)))
           (st_out st ++
              [Log INFO ("Finished, database file written: '" +:+ db +:+ "'")]))
    | Raise e =>
        (Return tt,
         with_out st (st_out st ++
           [Log ERROR ("Could not write data into '" +:+ db +:+
                       "', reason: " +:+ exn_msg e +:+ "'")]))
    end.
Proof.
  unfold init_store, try_except, sys_upd, lift, get_world, put_world, log, emit,
    ret, bind, with_out. cbn [st_self st_world st_out].
  unfold file_open_w. case_decide; [|done]. cbn [exn_cls exn_msg].
  by rewrite decide_True.
Qed.

(** [init] after the backup step: scan, inventory, scratch file, database. *)
Lemma init_run st :
  init st =
    let cfg := config (st_self st) in
    let st0 :=
      with_out st (st_out st ++
        [Log INFO "Performing initialization ...";
         Log INFO ("Processing '" +:+ watched_dir cfg +:+ "' directory ...")]) in
    match init_backup (database cfg) st0 with
    | (Raise e, st1) => (Raise e, st1)
    | (Return _, st1) =>
        match get_files (st_world st1) (watched_dir cfg) (watch_masks cfg) with
        | Raise e => (Raise e, st1)
        | Return names =>
            match inventory (st_world st1) (ignore_list cfg) names ∅ with
            | Raise e => (Raise e, st1)
            | Return data =>
                let st2 :=
                  with_out st1 (st_out st1 ++
                    [Log INFO ("Storing timestamp info about " +:+
                               pretty (size data) +:+ " files ...")]) in
                match file_open_w (st_world st2) tempfile with
                | Raise e => (Raise e, st2)
                | Return w3 =>
                    let w4 := file_write w3 tempfile (dict_str (JDict data)) in
                    (Return None,
                     (init_store (database cfg) data
                        (State (st_self st2) w4 (st_out st2))).2)
                end
            end
        end
    end.
Proof.
  unfold init. unfold bind at 1, get_self. unfold bind at 1, log at 1, emit.
  unfold bind at 1, log at 1, emit. cbn [st_self st_world st_out].
  rewrite <-app_assoc. cbn [app]. unfold with_out.
  unfold bind at 1.
  match goal with |- context [init_backup ?d ?s] =>
    destruct (init_backup d s) as [[[]|e] st1] eqn:Hb end; [|done].
  assert (config (st_self st1) = config (st_self st)) as Hcfg.
  { rewrite init_backup_run in Hb. cbn [st_self st_world st_out] in Hb.
    destruct (os_path_exists _ _); [|by injection Hb as <-].
    destruct (os_rename _ _ _); [|done]. by injection Hb as <-. }
  unfold bind at 1, sys, get_world, lift. unfold bind at 1.
  destruct (get_files _ _ _) as [names|e]; [|done].
  unfold bind at 1. rewrite init_collect_run.
  destruct (inventory _ _ _ _) as [data|e]; [|done].
  unfold bind at 1, log at 1, emit.
  unfold bind at 1, sys_upd, get_world, put_world, lift, bind.
  cbn [st_self st_world st_out].
  destruct (file_open_w (st_world st1) tempfile) as [w3|e]; [|done].
  cbn [st_self st_world st_out].
  match goal with |- context [init_store ?d ?x ?s] =>
    destruct (init_store d x s) as [[[]|e] st5] eqn:Hs end; [done|].
  rewrite init_store_run in Hs. by destruct (file_open_w _ _).
Qed.

(** *** Files that a step leaves alone *)

Lemma file_open_w_other w p w' q :
  file_open_w w p = Return w' → q ≠ p → w_fs w' !! q = w_fs w !! q.
Proof.
  unfold file_open_w. case_decide; [done|]. intros [= <-] Hq.
  cbn [set_fs w_fs]. by apply lookup_insert_ne.
Qed.

Lemma file_write_other w p s q :
  q ≠ p → w_fs (file_write w p s) !! q = w_fs w !! q.
Proof. intros Hq. unfold file_write. cbn [set_fs w_fs]. by apply lookup_insert_ne. Qed.

Lemma init_store_other db data st q :
  q ≠ db →
  w_fs (st_world (init_store db data st).2) !! q = w_fs (st_world st) !! q.
Proof.
  intros Hq. rewrite init_store_run.
  destruct (file_open_w (st_world st) db) as [w1|e] eqn:Hopen; [|done].
  cbn [snd st_world]. rewrite file_write_other by done.
  by apply (file_open_w_other _ _ _ _ Hopen).
Qed.

Lemma String_app_ne (s t : string) : t ≠ EmptyString → s +:+ t ≠ s.
Proof.
  intros Ht. induction s as [|c s IH]; [done|].
  cbn [String.append]. intros [= Heq]. by apply IH.
Qed.

Lemma backup_name_fresh db t : backup_name db t ≠ db.
Proof. unfold backup_name. by apply String_app_ne. Qed.

(** The scratch file of [init] is never the backup: its name does not
    contain [.backup.]. *)
Lemma backup_name_not_tempfile db t : backup_name db t ≠ tempfile.
Proof.
  unfold backup_name, tempfile. generalize (float_str t). intros x H.
  repeat (destruct db as [|? db]; simplify_eq/=).
Qed.

End Runs.

(** ** Properties of the drift engine *)

Section Drift.
Context {RT : Runtime}.

(** The result lists of [check]: empty when no dictionary was loaded,
    otherwise the marks of the loop over its entries and, if that loop ran to
    its end and the scan succeeded, the new files among the scanned ones. *)
Lemma check_lists cfg w :
  let st := (check (start cfg w)).2 in
  (modified st = [] ∧ removed st = [] ∧ added st = [] ∧
   ∀ text d, file_read w (database cfg) = Return text →
             json_load text ≠ Return (JDict d))
  ∨ ∃ text d ms rs ex,
      file_read w (database cfg) = Return text ∧
      json_load text = Return (JDict d) ∧
      diff_entries w (map_to_list d) = (ms, rs, ex) ∧
      modified st = ms ∧ removed st = rs ∧
      (added st = [] ∨
       ∃ names,
         get_files w (watched_dir cfg) (watch_masks cfg) = Return names ∧
         ex = None ∧
         added st = new_files (ignore_list cfg) (map_to_list d).*1 names).
Proof.
  cbn zeta. rewrite check_run. cbn zeta.
  unfold start, with_out. cbn [st_self st_world st_out config FileWatcher_new].
  destruct (file_read w (database cfg)) as [text|e] eqn:Hread.
  2:{ left. by split_and!. }
  destruct (json_load text) as [data|e] eqn:Hload.
  2:{ left. split_and!; try done. intros ?? [= <-]. congruence. }
  assert ((∃ d, data = JDict d) ∨ ∀ d, data ≠ JDict d) as [[d ->]|Hnd]
    by (destruct data; eauto).
  2:{ left. edestruct (check_loaded_not_dict data) as [e [-> _]]; [done|].
      split_and!; try done. intros ?? [= <-] Heq. rewrite Hload in Heq.
      injection Heq as ->. by destruct (Hnd d). }
  right. exists text, d. rewrite check_loaded_run. cbn zeta.
  cbn [st_self st_world st_out config FileWatcher_new].
  destruct (diff_entries w (map_to_list d)) as [[ms rs] ex] eqn:Hd.
  exists ms, rs, ex. split_and!; try done.
  - by destruct ex as [e|]; [|destruct (get_files _ _ _)].
  - by destruct ex as [e|]; [|destruct (get_files _ _ _)].
  - destruct ex as [e|]; [by left|].
    destruct (get_files _ _ _) as [names|e]; [|by left].
    right. by exists names.
Qed.

Lemma new_files_elem ignore keys names p :
  p ∈ new_files ignore keys names ↔ ((p ∉ ignore) ∧ (p ∉ keys)) ∧ p ∈ names.
Proof. unfold new_files. by rewrite list_elem_of_filter. Qed.

Lemma key_in_items (d : gmap string json) p v :
  d !! p = Some v → p ∈ (map_to_list d).*1.
Proof.
  intros Hp. apply list_elem_of_fmap. exists (p, v).
  split; [done|]. by apply elem_of_map_to_list.
Qed.

(** C1: the three result lists of [check] never share a path, and a path
    of the loaded database whose file can be read and whose timestamp equals
    the recorded one is in none of them. *)
Theorem check_result_sets_disjoint (cfg : Config) (w : world) :
  let st := (check (start cfg w)).2 in
  (∀ p, p ∈ added st → p ∈ removed st → False) ∧
  (∀ p, p ∈ added st → p ∈ modified st → False) ∧
  (∀ p, p ∈ removed st → p ∈ modified st → False) ∧
  (∀ text d p v dt recorded,
     file_read w (database cfg) = Return text →
     json_load text = Return (JDict d) →
     d !! p = Some v →
     os_path_getmtime w p = Return dt →
     py_getitem v "last_modif" = Return recorded →
     py_float_eq dt recorded = true →
     (p ∉ added st) ∧ (p ∉ removed st) ∧ (p ∉ modified st)).
Proof.
  intros st. destruct (check_lists cfg w) as
    [(Hm & Hr & Ha & Hno)|(text & d & ms & rs & ex & Hread & Hload & Hd & Hm & Hr & Ha)];
    fold st in Hm, Hr, Ha.
  { rewrite Hm, Hr, Ha. split_and!; try (intros p Hp; by apply elem_of_nil in Hp).
    intros text d p v dt r Hread Hload. by destruct (Hno _ d Hread). }
  assert (∀ p, p ∈ added st → p ∉ (map_to_list d).*1) as Hadded.
  { intros p Hp. destruct Ha as [Ha|(names & _ & _ & Ha)]; rewrite Ha in Hp.
    - by apply elem_of_nil in Hp.
    - apply new_files_elem in Hp. tauto. }
  assert (∀ p, p ∈ removed st → p ∈ (map_to_list d).*1 ∧
                 ∃ e, os_path_getmtime w p = Raise e) as Hremoved.
  { intros p Hp. rewrite Hr in Hp.
    destruct (diff_entries_removed _ _ _ _ _ _ Hd Hp) as [[v Hv] He].
    split; [|done]. apply elem_of_map_to_list in Hv. by eapply key_in_items. }
  assert (∀ p, p ∈ modified st →
            ∃ v dt r, d !! p = Some v ∧ os_path_getmtime w p = Return dt ∧
                      py_getitem v "last_modif" = Return r ∧
                      py_float_ne dt r = true) as Hmodified.
  { intros p Hp. rewrite Hm in Hp.
    destruct (diff_entries_modified _ _ _ _ _ _ Hd Hp) as (v & dt & r & Hv & ?).
    apply elem_of_map_to_list in Hv. by exists v, dt, r. }
  split_and!.
  - intros p Hp1 Hp2. apply Hadded in Hp1. apply Hremoved in Hp2. tauto.
  - intros p Hp1 Hp2. apply Hadded in Hp1.
    destruct (Hmodified _ Hp2) as (v & _ & _ & Hv & _).
    apply Hp1. by eapply key_in_items.
  - intros p Hp1 Hp2. destruct (Hremoved _ Hp1) as [_ [e He]].
    destruct (Hmodified _ Hp2) as (_ & dt & _ & _ & Hdt & _). congruence.
  - intros text' d' p v dt r Hread' Hload' Hv Hdt Hget Heq.
    assert (d' = d) as -> by congruence.
    split_and!.
    + intros Hp. apply Hadded in Hp. apply Hp. by eapply key_in_items.
    + intros Hp. destruct (Hremoved _ Hp) as [_ [e He]]. congruence.
    + intros Hp. destruct (Hmodified _ Hp) as (v' & dt' & r' & Hv' & Hdt' & Hget' & Hne).
      assert (v' = v) as -> by congruence.
      assert (dt' = dt) as -> by congruence.
      assert (r' = r) as -> by congruence.
      unfold py_float_ne in Hne. rewrite Heq in Hne. done.
Qed.

(** The lists of removed and modified paths do not depend on the watched
    directory, the masks or the ignore list. *)
Lemma check_marks_filter_free cfg cfg' w :
  database cfg' = database cfg →
  removed (check (start cfg' w)).2 = removed (check (start cfg w)).2 ∧
  modified (check (start cfg' w)).2 = modified (check (start cfg w)).2.
Proof.
  intros Hdb.
  destruct (check_lists cfg w) as
    [(Hm & Hr & _ & Hno)|(text & d & ms & rs & ex & Hread & Hload & Hd & Hm & Hr & _)];
  destruct (check_lists cfg' w) as
    [(Hm' & Hr' & _ & Hno')|(text' & d' & ms' & rs' & ex' & Hread' & Hload' & Hd' & Hm' & Hr' & _)];
  rewrite Hdb in *.
  - by rewrite Hm, Hr, Hm', Hr'.
  - by destruct (Hno _ d' Hread').
  - by destruct (Hno' _ d Hread).
  - assert (d' = d) as -> by congruence.
    rewrite Hm, Hr, Hm', Hr'. rewrite Hd in Hd'. by injection Hd' as <- <- _.
Qed.

Lemma SFeqb_same_float x y : SFeqb x y = true ↔ same_float x y.
Proof.
  unfold SFeqb, same_float.
  destruct x as [sx|sx| |sx mx ex], y as [sy|sy| |sy my ey]; cbn [SFcompare];
    try (split; [done|by intros [=]]); try (split; done);
    try (destruct sx; split; done); try (destruct sy; split; done).
  - destruct sx, sy; split; try done; by intros [=].
  - destruct sx, sy; try (split; [done|by intros [=]]);
      destruct (Z.compare_spec ex ey) as [->| |];
      try (split; [done|intros [= -> ->]; lia]);
      rewrite Pos.compare_cont_spec; cbn [Pos.switch_Eq];
      destruct (Pos.compare_spec mx my) as [->| |]; cbn [CompOpp];
      try (split; [done|intros [= ->]; lia]); by split.
Qed.

Lemma records_checked_usable w d :
  records_checked d = true → records_usable w d.
Proof.
  unfold records_checked. rewrite forallb_forall. intros Hall q u dt Hq _.
  specialize (Hall (q, u)). cbn [snd] in Hall.
  destruct (py_getitem u "last_modif") as [x|e]; [by exists x|].
  discriminate Hall. apply list_elem_of_In. by apply elem_of_map_to_list.
Qed.

Lemma records_usable_runs w d :
  records_usable w d → ∃ ms rs, diff_entries w (map_to_list d) = (ms, rs, None).
Proof.
  intros Hok. apply diff_entries_runs. intros p v dt Hin.
  apply elem_of_map_to_list in Hin. by apply Hok.
Qed.

(** C3: a path of the database whose timestamp can be read is reported as
    modified exactly when the timestamp is not equal to the recorded value;
    for a recorded float that is when the two are not the same number. *)
Theorem check_modified_iff (cfg : Config) (w : world) text d p v dt recorded :
  file_read w (database cfg) = Return text →
  json_load text = Return (JDict d) →
  records_usable w d →
  d !! p = Some v →
  os_path_getmtime w p = Return dt →
  py_getitem v "last_modif" = Return recorded →
  let st := (check (start cfg w)).2 in
  (p ∈ modified st ↔ py_float_eq dt recorded = false) ∧
  (∀ r, recorded = JFloat r → (p ∈ modified st ↔ ¬ same_float dt r)).
Proof.
  intros Hread Hload Hok Hv Hdt Hget st.
  assert (p ∈ modified st ↔ py_float_eq dt recorded = false) as Hiff.
  { destruct (check_lists cfg w) as
      [(_ & _ & _ & Hno)|(text' & d' & ms & rs & ex & Hread' & Hload' & Hd & Hm & _)];
      [by destruct (Hno _ d Hread)|].
    fold st in Hm. assert (d' = d) as -> by congruence. rewrite Hm.
    split.
    - intros Hp.
      destruct (diff_entries_modified _ _ _ _ _ _ Hd Hp)
        as (v' & dt' & r' & Hv' & Hdt' & Hget' & Hne).
      apply elem_of_map_to_list in Hv'.
      assert (v' = v) as -> by congruence.
      assert (dt' = dt) as -> by congruence.
      assert (r' = recorded) as -> by congruence.
      unfold py_float_ne in Hne. by destruct (py_float_eq dt recorded).
    - intros Hne. destruct (records_usable_runs _ _ Hok) as (ms' & rs' & Hd').
      rewrite Hd in Hd'. injection Hd' as -> -> ->.
      assert ((p, v) ∈ map_to_list d) as Hin by by apply elem_of_map_to_list.
      pose proof (diff_entries_complete _ _ _ _ _ _ Hd Hin) as Hc.
      rewrite Hdt in Hc. destruct Hc as (r' & Hget' & Hc).
      apply Hc. assert (r' = recorded) as -> by congruence.
      unfold py_float_ne. by rewrite Hne. }
  split; [done|]. intros r ->. rewrite Hiff. cbn [py_float_eq].
  rewrite <-SFeqb_same_float. by destruct (SFeqb dt r).
Qed.

(** The run of [check] on a database that loads as a dictionary. *)
Lemma check_start_run cfg w text d :
  file_read w (database cfg) = Return text →
  json_load text = Return (JDict d) →
  check (start cfg w) =
    let '(ms, rs, ex) := diff_entries w (map_to_list d) in
    let out0 :=
      [Log INFO ("Performing check ... (database file: '" +:+
                 database cfg +:+ "')")] in
    let self a :=
      {| config := cfg; _modified := ms; _removed := rs; _added := a |} in
    match ex with
    | Some e => (Raise e, State (self []) w out0)
    | None =>
        match get_files w (watched_dir cfg) (watch_masks cfg) with
        | Raise e => (Raise e, State (self []) w out0)
        | Return names =>
            let a := new_files (ignore_list cfg) (map_to_list d).*1 names in
            (Return None, State (self a) w (out0 ++ summary_lines (self a)))
        end
    end.
Proof.
  intros Hread Hload. rewrite check_run. cbn zeta.
  unfold start, with_out. cbn [st_self st_world st_out config FileWatcher_new].
  rewrite Hread, Hload, check_loaded_run. cbn zeta.
  cbn [st_self st_world st_out config FileWatcher_new].
  destruct (diff_entries w (map_to_list d)) as [[ms rs] [e|]]; [done|].
  by destruct (get_files _ _ _).
Qed.

Lemma check_entry_world item st : st_world (check_entry item st).2 = st_world st.
Proof.
  destruct item as [p v]. rewrite check_entry_run.
  destruct (os_path_getmtime _ _); [|done].
  destruct (py_getitem _ _); [|done]. by destruct (py_float_ne _ _).
Qed.

Lemma check_entries_world items st :
  st_world (for_each items check_entry st).2 = st_world st.
Proof.
  rewrite check_entries_run. by destruct (diff_entries _ _) as [[ms rs] ex].
Qed.

Lemma append_removed_run p st :
  append_removed p st =
    (Return tt, with_lists st (modified st) (removed st ++ [p]) (added st)).
Proof. reflexivity. Qed.

(** C4: when the timestamp of a database entry cannot be read, its round
    of the loop ends normally with the path appended to the removed list,
    whatever its record holds, and the loop goes on with the entries after
    it; in the result of [check] the path is removed, unless the record of
    another, readable entry stopped the loop. *)
Theorem check_stat_error_removed (cfg : Config) (w : world) text d p v e :
  file_read w (database cfg) = Return text →
  json_load text = Return (JDict d) →
  d !! p = Some v →
  os_path_getmtime w p = Raise e →
  (∀ st, st_world st = w →
     check_entry (p, v) st =
       (Return tt, with_lists st (modified st) (removed st ++ [p]) (added st))) ∧
  (∀ pre post st, st_world st = w →
     for_each (pre ++ (p, v) :: post) check_entry st =
       (for_each pre check_entry ;;; append_removed p ;;;
        for_each post check_entry) st) ∧
  (p ∈ removed (check (start cfg w)).2 ∨
   ∃ q u dtq e',
     d !! q = Some u ∧ os_path_getmtime w q = Return dtq ∧
     py_getitem u "last_modif" = Raise e' ∧
     (check (start cfg w)).1 = Raise e').
Proof.
  intros Hread Hload Hv Hst.
  assert (∀ st, st_world st = w →
    check_entry (p, v) st =
      (Return tt, with_lists st (modified st) (removed st ++ [p]) (added st)))
    as Hround.
  { intros st <-. rewrite check_entry_run. by rewrite Hst. }
  split_and!; [done| |].
  - intros pre post st Hw. rewrite for_each_app. cbn [for_each]. unfold bind.
    pose proof (check_entries_world pre st) as Hpre.
    destruct (for_each pre check_entry st) as [[[]|e0] st1]; [|done].
    cbn [snd] in Hpre. rewrite Hround by congruence.
    by rewrite append_removed_run.
  - rewrite (check_start_run _ _ _ _ Hread Hload).
    destruct (diff_entries w (map_to_list d)) as [[ms rs] [e'|]] eqn:Hd.
    + right. destruct (diff_entries_stops _ _ _ _ _ Hd) as (q & u & dtq & Hq & ? & ?).
      apply elem_of_map_to_list in Hq. by exists q, u, dtq, e'.
    + left. assert ((p, v) ∈ map_to_list d) as Hin by by apply elem_of_map_to_list.
      pose proof (diff_entries_complete _ _ _ _ _ _ Hd Hin) as Hc.
      rewrite Hst in Hc.
      by destruct (get_files _ _ _).
Qed.


(** [main] in terms of the run of the method it calls. *)
Lemma main_run act cfg w :
  main act cfg w =
    match (match act with ActInit => init | ActCheck => check end) (start cfg w) with
    | (Return ret_val, st) =>
        (Exit (default 0%Z ret_val),
         with_out st (st_out st ++ [Log INFO "Finished."]))
    | (Raise e, st) => (Traceback e, st)
    end.
Proof.
  unfold main, bind, log, emit, ret, with_out. fold (start cfg w).
  destruct (_ (start cfg w)) as [[[code|]|e] st]; cbn [default]; try done.
  case_decide; by subst.
Qed.


(** C2: the loop over the database marks every entry, whatever the masks,
    the ignore list and the scan say: the removed paths are entries whose
    timestamp cannot be read, the modified paths are entries whose timestamp
    differs from the recorded one, and both lists are the same for any other
    directory, masks and ignore list.  The added paths are scanned paths
    outside the ignore list and outside the database.  When the records are
    usable the converse holds as well: every entry that cannot be examined is
    removed and every entry whose timestamp differs is modified, passing the
    filter or not, and every scanned path outside the ignore list and the
    database is added.  So an entry whose file still exists is neither
    removed nor added, and it is modified exactly when its timestamp
    differs. *)
Theorem check_filter_asymmetry (cfg : Config) (w : world) text d :
  file_read w (database cfg) = Return text →
  json_load text = Return (JDict d) →
  let st := (check (start cfg w)).2 in
  (∀ cfg', database cfg' = database cfg →
           removed (check (start cfg' w)).2 = removed st ∧
           modified (check (start cfg' w)).2 = modified st) ∧
  (∀ p, p ∈ removed st →
        is_Some (d !! p) ∧ ∃ e, os_path_getmtime w p = Raise e) ∧
  (∀ p, p ∈ modified st →
        ∃ v dt recorded,
          d !! p = Some v ∧ os_path_getmtime w p = Return dt ∧
          py_getitem v "last_modif" = Return recorded ∧
          py_float_ne dt recorded = true) ∧
  (∀ p, p ∈ added st →
        (p ∉ ignore_list cfg) ∧ d !! p = None ∧
        ∃ names,
          get_files w (watched_dir cfg) (watch_masks cfg) = Return names ∧
          p ∈ names) ∧
  (records_usable w d →
   (∀ p e, is_Some (d !! p) → os_path_getmtime w p = Raise e →
           p ∈ removed st) ∧
   (∀ p v dt recorded,
      d !! p = Some v → os_path_getmtime w p = Return dt →
      py_getitem v "last_modif" = Return recorded →
      (p ∈ modified st ↔ py_float_ne dt recorded = true) ∧
      (p ∉ removed st) ∧ (p ∉ added st)) ∧
   (∀ names p,
      get_files w (watched_dir cfg) (watch_masks cfg) = Return names →
      p ∈ names → p ∉ ignore_list cfg → d !! p = None →
      p ∈ added st)).
Proof.
  intros Hread Hload st.
  destruct (diff_entries w (map_to_list d)) as [[ms rs] ex] eqn:Hd.
  assert (removed st = rs ∧ modified st = ms ∧
          (added st = [] ∨
           ∃ names,
             get_files w (watched_dir cfg) (watch_masks cfg) = Return names ∧
             added st = new_files (ignore_list cfg) (map_to_list d).*1 names) ∧
          (ex = None → ∀ names,
             get_files w (watched_dir cfg) (watch_masks cfg) = Return names →
             added st = new_files (ignore_list cfg) (map_to_list d).*1 names))
    as (Hr & Hm & Ha & Ha').
  { subst st. rewrite (check_start_run _ _ _ _ Hread Hload), Hd.
    destruct ex as [e|]; [by split_and!; [..|left|]|].
    destruct (get_files _ _ _) as [names|e]; [|by split_and!; [..|left|]].
    split_and!; [done|done|right; by exists names|]. by intros _ ? [= <-]. }
  assert (∀ p, p ∈ added st →
            (p ∉ ignore_list cfg) ∧ d !! p = None ∧
            ∃ names,
              get_files w (watched_dir cfg) (watch_masks cfg) = Return names ∧
              p ∈ names) as Hadded.
  { intros p Hp. destruct Ha as [Ha|(names & Hscan & Ha)]; rewrite Ha in Hp.
    - by apply elem_of_nil in Hp.
    - apply new_files_elem in Hp as [[Hig Hk] Hin]. split_and!; [done| |eauto].
      destruct (d !! p) as [v|] eqn:Hv; [|done].
      destruct Hk. by eapply key_in_items. }
  assert (∀ p, p ∈ removed st →
            is_Some (d !! p) ∧ ∃ e, os_path_getmtime w p = Raise e) as Hremoved.
  { intros p Hp. rewrite Hr in Hp.
    destruct (diff_entries_removed _ _ _ _ _ _ Hd Hp) as [[v Hv] He].
    apply elem_of_map_to_list in Hv. eauto. }
  assert (∀ p, p ∈ modified st →
            ∃ v dt recorded,
              d !! p = Some v ∧ os_path_getmtime w p = Return dt ∧
              py_getitem v "last_modif" = Return recorded ∧
              py_float_ne dt recorded = true) as Hmodified.
  { intros p Hp. rewrite Hm in Hp.
    destruct (diff_entries_modified _ _ _ _ _ _ Hd Hp) as (v & dt & r & Hv & ?).
    apply elem_of_map_to_list in Hv. by exists v, dt, r. }
  split_and!; [|done|done|done|].
  - intros cfg' Hdb. by apply check_marks_filter_free.
  - intros Hok. destruct (records_usable_runs _ _ Hok) as (ms' & rs' & Hd').
    rewrite Hd in Hd'. injection Hd' as -> -> ->. split_and!.
    + intros p e [v Hv] He. apply elem_of_map_to_list in Hv.
      pose proof (diff_entries_complete _ _ _ _ _ _ Hd Hv) as Hc.
      rewrite He in Hc. by rewrite Hr.
    + intros p v dt r Hv Hdt Hget. split_and!.
      * split.
        -- intros Hp. destruct (Hmodified _ Hp) as (v' & dt' & r' & ? & ? & ? & ?).
           congruence.
        -- intros Hne. rewrite Hm.
           assert ((p, v) ∈ map_to_list d) as Hin by by apply elem_of_map_to_list.
           pose proof (diff_entries_complete _ _ _ _ _ _ Hd Hin) as Hc.
           rewrite Hdt in Hc. destruct Hc as (r' & Hget' & Hc).
           apply Hc. congruence.
      * intros Hp. destruct (Hremoved _ Hp) as [_ [e He]]. congruence.
      * intros Hp. destruct (Hadded _ Hp) as (_ & Hnone & _). congruence.
    + intros names p Hscan Hin Hig Hnone. rewrite (Ha' eq_refl _ Hscan).
      apply new_files_elem. split_and!; [done| |done].
      intros Hk. apply list_elem_of_fmap in Hk as ([q v] & -> & Hv).
      apply elem_of_map_to_list in Hv. cbn in Hnone. congruence.
Qed.

End Drift.

(** ** Properties of the snapshot store *)

Section Store.
Context {RT : Runtime}.

Lemma exists_when_present w p f :
  w_fs w !! p = Some f → p ∉ w_nostat w → os_path_exists w p = true.
Proof.
  intros Hf Hs. unfold os_path_exists, os_path_getmtime.
  rewrite decide_False by done. by rewrite Hf.
Qed.

(** C7: when a file exists at the database path, [init] first renames it
    to the backup name, [<path>.backup.<time>], at a moment when nothing has
    been written yet; at the end of [init], whatever its outcome, the backup
    name holds the original file.  The premises say that [os.path.exists]
    sees the file and that the rename is permitted. *)
Theorem init_backs_up_database (cfg : Config) (w : world) (f : file) :
  let db := database cfg in
  let bak := backup_name db (w_clock w) in
  w_fs w !! db = Some f →
  db ∉ w_nostat w →
  db ∉ w_norename w →
  (∀ st, st_world st = w →
     init_backup db st =
       (Return tt,
        State (st_self st) (set_fs w (<[bak := f]> (delete db (w_fs w))))
          (st_out st ++
             [Log WARN ("Database file '" +:+ db +:+ "' exists, backupped.")]))) ∧
  w_fs (st_world (init (start cfg w)).2) !! bak = Some f.
Proof.
  intros db bak Hf Hstat Hren.
  pose proof (backup_name_not_tempfile db (w_clock w)) as Htmp. fold bak in Htmp.
  assert (∀ st, st_world st = w →
     init_backup db st =
       (Return tt,
        State (st_self st) (set_fs w (<[bak := f]> (delete db (w_fs w))))
          (st_out st ++
             [Log WARN ("Database file '" +:+ db +:+ "' exists, backupped.")])))
    as Hbackup.
  { intros st <-. rewrite init_backup_run. cbn zeta.
    rewrite (exists_when_present _ _ _ Hf Hstat). unfold os_rename.
    rewrite Hf. by rewrite decide_False. }
  split; [done|].
  rewrite init_run. cbn zeta. fold db.
  rewrite Hbackup by done.
  set (w1 := set_fs w (<[bak := f]> (delete db (w_fs w)))).
  assert (w_fs w1 !! bak = Some f) as Hbak by apply lookup_insert_eq.
  cbn [st_world st_self st_out].
  destruct (get_files w1 _ _) as [names|e]; [|done].
  destruct (inventory w1 _ _ _) as [data|e]; [|done].
  cbn [with_out st_world st_self st_out].
  destruct (file_open_w w1 tempfile) as [w3|e] eqn:Hopen; [|done].
  cbn [snd]. rewrite init_store_other by apply backup_name_fresh.
  cbn [st_world]. rewrite file_write_other by done.
  by rewrite (file_open_w_other _ _ _ _ Hopen Htmp).
Qed.

(** What the store step of [init] wrote is what the load step of [check]
    reads: for every dictionary, storing it at a path that can be written and
    read and loading from that path gives exactly what [json.load] makes of
    the text [json.dump] produced for it, whatever the file held before. *)
Theorem store_then_load (db : string) (S : gmap string json) (st : state) :
  db ∉ w_nowrite (st_world st) →
  db ∉ w_noread (st_world st) →
  ((init_store db S ;;; load_database db) st).1
    = json_load (json_dump (JDict S)) ∧
  f_body <$> (w_fs (st_world ((init_store db S ;;; load_database db) st).2) !! db)
    = Some (json_dump (JDict S)).
Proof.
  intros Hwr Hrd.
  assert (∃ st',
    (init_store db S ;;; load_database db) st
      = (json_load (json_dump (JDict S)), st') ∧
    f_body <$> (w_fs (st_world st') !! db) = Some (json_dump (JDict S)))
    as (st' & -> & Hbody); [|done].
  unfold bind at 1. rewrite init_store_run.
  unfold file_open_w. rewrite decide_False by done.
  unfold load_database, sys, get_world, lift, bind.
  cbn [st_world]. unfold file_read, file_write.
  cbn [set_fs w_fs w_noread]. rewrite decide_False by done.
  rewrite !lookup_insert_eq. cbn [f_body].
  change (EmptyString +:+ json_dump (JDict S)) with (json_dump (JDict S)).
  eexists. split; [reflexivity|].
  cbn [st_world set_fs w_fs]. by rewrite lookup_insert_eq.
Qed.

(** *** Records that cannot be used *)

(** C10: in the loop of [check] only [OSError] is handled.  When the
    record of a readable file has no [last_modif] (and the other records are
    usable), [check] ends with a [KeyError]: the path is not put in the
    removed list, no load error is logged, no summary is printed, and the
    process ends with a traceback. *)
Theorem check_missing_last_modif_raises (cfg : Config) (w : world)
    text d p r dt :
  file_read w (database cfg) = Return text →
  json_load text = Return (JDict d) →
  d !! p = Some (JDict r) →
  r !! "last_modif" = None →
  os_path_getmtime w p = Return dt →
  (∀ q u dtq, q ≠ p → d !! q = Some u → os_path_getmtime w q = Return dtq →
              ∃ x, py_getitem u "last_modif" = Return x) →
  let res := check (start cfg w) in
  res.1 = Raise (Exn KeyError "last_modif") ∧
  (p ∉ removed res.2) ∧
  st_out res.2 =
    [Log INFO ("Performing check ... (database file: '" +:+
               database cfg +:+ "')")] ∧
  (main ActCheck cfg w).1 = Traceback (Exn KeyError "last_modif").
Proof.
  intros Hread Hload Hp Hr Hdt Hothers res.
  assert ((p, JDict r) ∈ map_to_list d) as Hin by by apply elem_of_map_to_list.
  assert (py_getitem (JDict r) "last_modif" = Raise (Exn KeyError "last_modif"))
    as Hget by (cbn [py_getitem]; by rewrite Hr).
  destruct (diff_entries w (map_to_list d)) as [[ms rs] ex] eqn:Hd.
  assert (ex = Some (Exn KeyError "last_modif")) as ->.
  { destruct ex as [e|].
    - destruct (diff_entries_stops _ _ _ _ _ Hd) as (q & u & dtq & Hq & Hsq & Hgq).
      apply elem_of_map_to_list in Hq.
      destruct (decide (q = p)) as [->|Hne].
      + assert (u = JDict r) as -> by congruence. congruence.
      + destruct (Hothers _ _ _ Hne Hq Hsq) as [x Hx]. congruence.
    - pose proof (diff_entries_complete _ _ _ _ _ _ Hd Hin) as Hc.
      rewrite Hdt in Hc. destruct Hc as (x & Hx & _). congruence. }
  assert (p ∉ rs) as Hnot.
  { intros Hrs. destruct (diff_entries_removed _ _ _ _ _ _ Hd Hrs) as [_ [e He]].
    congruence. }
  rewrite main_run. subst res.
  rewrite (check_start_run _ _ _ _ Hread Hload), Hd. by split_and!.
Qed.

(** A database that holds JSON other than an object stops [check] with an
    [AttributeError], before anything is compared or printed. *)
Lemma check_not_a_dictionary (cfg : Config) (w : world) text data :
  file_read w (database cfg) = Return text →
  json_load text = Return data →
  (∀ d, data ≠ JDict d) →
  ∃ e, (main ActCheck cfg w).1 = Traceback e ∧ exn_cls e = AttributeError ∧
       st_out (main ActCheck cfg w).2 =
         [Log INFO ("Performing check ... (database file: '" +:+
                    database cfg +:+ "')")].
Proof.
  intros Hread Hload Hnd. rewrite main_run, check_run. cbn zeta.
  unfold start, with_out. cbn [st_self st_world st_out config FileWatcher_new].
  rewrite Hread, Hload.
  match goal with |- context [check_loaded data ?st] =>
    destruct (check_loaded_not_dict data st Hnd) as (e & -> & He) end.
  by exists e.
Qed.

(** When [init] ends normally and the database path can be written, the
    database file holds the dump of the inventory of the scanned files. *)
Lemma init_stores_inventory (cfg : Config) (w : world) st1 :
  init (start cfg w) = (Return None, st1) →
  database cfg ∉ w_nowrite w →
  ∃ w1 names data,
    get_files w1 (watched_dir cfg) (watch_masks cfg) = Return names ∧
    inventory w1 (ignore_list cfg) names ∅ = Return data ∧
    f_body <$> (w_fs (st_world st1) !! database cfg)
      = Some (json_dump (JDict data)).
Proof.
  rewrite init_run. cbn zeta. unfold start at 1 2 3 4.
  cbn [st_self st_world st_out config FileWatcher_new]. intros Hrun Hwr.
  destruct (init_backup _ _) as [[[]|e] s1] eqn:Hb; [|done].
  assert (w_nowrite (st_world s1) = w_nowrite w) as Hsame.
  { rewrite init_backup_run in Hb. cbn zeta in Hb.
    unfold start, with_out in Hb.
    cbn [st_self st_world st_out config FileWatcher_new] in Hb.
    destruct (os_path_exists w (database cfg)); [|by injection Hb as <-].
    unfold os_rename in Hb. destruct (w_fs w !! database cfg); [|done].
    case_decide; [done|]. by injection Hb as <-. }
  destruct (get_files (st_world s1) _ _) as [names|e] eqn:Hscan; [|done].
  destruct (inventory (st_world s1) _ _ _) as [data|e] eqn:Hinv; [|done].
  cbn [with_out st_world st_self st_out] in Hrun.
  destruct (file_open_w (st_world s1) tempfile) as [w3|e] eqn:Hopen; [|done].
  injection Hrun as <-. exists (st_world s1), names, data.
  split_and!; [done..|].
  rewrite init_store_run. cbn [st_world].
  assert (w_nowrite w3 = w_nowrite w) as Hsame3.
  { unfold file_open_w in Hopen. case_decide; [done|].
    by injection Hopen as <-. }
  unfold file_open_w. cbn [file_write set_fs w_nowrite].
  rewrite Hsame3, decide_False by done. cbn [snd st_world].
  unfold file_write. cbn [set_fs w_fs]. by rewrite !lookup_insert_eq.
Qed.

End Store.

(** ** The theorems at work *)

Section Examples.
Import Demo.

Ltac by_computation :=
  lazymatch goal with
  | |- ?P => refine (@bool_decide_unpack P _ _); vm_compute; exact I
  end.

(** The run of [check] on the tree of [worldB]: one file is new, one is
    gone, one was touched; the ignored file and the file outside the masks
    are not reported. *)
Example scenario_drift :
  drift rtB cfgB worldB = (["/d/b.txt"], ["/d/c.txt"], ["/d/a.txt"]).
Proof. vm_compute. reflexivity. Qed.

(** The inventory of [init] on the same tree: the files matching the mask,
    without the ignored one. *)
Example scenario_inventory :
  inventory (RT := rtB) worldB ["/d/skip.txt"]
    ["/d/a.txt"; "/d/b.txt"; "/d/skip.txt"] ∅
  = Return (snapshot [("/d/a.txt", 200); ("/d/b.txt", 7)]%positive).
Proof. vm_compute. reflexivity. Qed.

(** The comparison has no tolerance: the float next to 1.0 differs from
    1.0; an integer equal in value does not differ. *)
Example one_ulp_differs :
  py_float_ne (S754_finite false 4503599627370497 (-52))
              (JFloat (S754_finite false 4503599627370496 (-52))) = true ∧
  py_float_ne (secs 100) (JInt 100) = false.
Proof. split; reflexivity. Qed.

(** [keep.log] is in the database with the timestamp it still has. *)
Lemma check_result_sets_disjoint_witness :
  ("/d/keep.log" ∉ added (check (RT := rtB) (start cfgB worldB)).2) ∧
  ("/d/keep.log" ∉ removed (check (RT := rtB) (start cfgB worldB)).2) ∧
  ("/d/keep.log" ∉ modified (check (RT := rtB) (start cfgB worldB)).2).
Proof.
  destruct (check_result_sets_disjoint (RT := rtB) cfgB worldB) as (_ & _ & _ & H).
  apply (H (show (JDict dictB)) dictB "/d/keep.log"
           (file_record (secs 70) "2012-01-01 00:00:00")
           (secs 70) (JFloat (secs 70)));
    vm_compute; reflexivity.
Defined.

(** With the mask [*.log] and [c.txt] on the ignore list, the touched
    [a.txt] lies outside the mask and the deleted [c.txt] is ignored: both
    are reported all the same, [b.txt] is not scanned and not reported, and
    the scanned [keep.log] is an entry and not new. *)
Lemma check_filter_asymmetry_witness :
  "/d/c.txt" ∈ removed (check (RT := rtB) (start (cfg ["*.log"] ["/d/c.txt"]) worldB)).2 ∧
  "/d/a.txt" ∈ modified (check (RT := rtB) (start (cfg ["*.log"] ["/d/c.txt"]) worldB)).2 ∧
  ("/d/keep.log" ∉ removed (check (RT := rtB) (start (cfg ["*.log"] ["/d/c.txt"]) worldB)).2) ∧
  ("/d/keep.log" ∉ added (check (RT := rtB) (start (cfg ["*.log"] ["/d/c.txt"]) worldB)).2) ∧
  ("/d/b.txt" ∉ added (check (RT := rtB) (start (cfg ["*.log"] ["/d/c.txt"]) worldB)).2).
Proof.
  destruct (check_filter_asymmetry (RT := rtB) (cfg ["*.log"] ["/d/c.txt"])
              worldB (show (JDict dictB)) dictB)
    as (_ & _ & _ & Hadded & Hdone); [vm_compute; reflexivity..|].
  destruct Hdone as (Hrem & Hmod & _).
  { apply records_checked_usable. vm_compute. reflexivity. }
  destruct (Hmod "/d/a.txt" (file_record (secs 100) "2012-01-01 00:00:00")
              (secs 200) (JFloat (secs 100))) as (Ha & _);
    [vm_compute; reflexivity..|].
  destruct (Hmod "/d/keep.log" (file_record (secs 70) "2012-01-01 00:00:00")
              (secs 70) (JFloat (secs 70))) as (_ & Hk1 & Hk2);
    [vm_compute; reflexivity..|].
  split_and!.
  - apply (Hrem "/d/c.txt" (Exn OSError "No such file or directory")).
    + eexists. vm_compute. reflexivity.
    + vm_compute. reflexivity.
  - apply Ha. vm_compute. reflexivity.
  - exact Hk1.
  - exact Hk2.
  - intros Hb. destruct (Hadded _ Hb) as (_ & _ & names & Hscan & Hin).
    vm_compute in Hscan. injection Hscan as <-.
    apply list_elem_of_singleton in Hin. discriminate Hin.
Defined.

(** [a.txt] was recorded at 100 and is now at 200. *)
Lemma check_modified_iff_witness :
  "/d/a.txt" ∈ modified (check (RT := rtB) (start cfgB worldB)).2 ↔
  py_float_eq (secs 200) (JFloat (secs 100)) = false.
Proof.
  apply (check_modified_iff (RT := rtB) cfgB worldB
           (show (JDict dictB)) dictB "/d/a.txt"
           (file_record (secs 100) "2012-01-01 00:00:00")
           (secs 200) (JFloat (secs 100)));
    try (vm_compute; reflexivity).
  apply records_checked_usable. vm_compute. reflexivity.
Defined.

(** [c.txt] is in the database and no longer on disk. *)
Lemma check_stat_error_removed_witness :
  "/d/c.txt" ∈ removed (check (RT := rtB) (start cfgB worldB)).2.
Proof.
  destruct (check_stat_error_removed (RT := rtB) cfgB worldB
              (show (JDict dictB)) dictB "/d/c.txt"
              (file_record (secs 50) "2012-01-01 00:00:00")
              (Exn OSError "No such file or directory"))
    as (_ & _ & [H|(q & u & dtq & e' & _ & _ & _ & H)]);
    [vm_compute; reflexivity..|exact H|].
  vm_compute in H. discriminate H.
Defined.



(** [init] on a tree that has a database file. *)
Lemma init_backs_up_database_witness :
  w_fs (st_world (init (RT := rtB) (start cfgB worldB)).2)
    !! "/db.json.backup.1000p0"
  = Some (File (secs 5) (show (JDict dictB))).
Proof.
  refine (proj2 (init_backs_up_database (RT := rtB) cfgB worldB
                   (File (secs 5) (show (JDict dictB))) _ _ _)).
  - vm_compute. reflexivity.
  - by_computation.
  - by_computation.
Defined.

(** The record of [a.txt] is an empty object. *)
Lemma check_missing_last_modif_raises_witness :
  (check (RT := rtK) (start cfgB worldK)).1 = Raise (Exn KeyError "last_modif") ∧
  (main (RT := rtK) ActCheck cfgB worldK).1 = Traceback (Exn KeyError "last_modif").
Proof.
  destruct (check_missing_last_modif_raises (RT := rtK) cfgB worldK
              (show (JDict dictK)) dictK "/d/a.txt" ∅ (secs 200))
    as (Hres & _ & _ & Hmain); [vm_compute; reflexivity..| |by split].
  intros q u dtq Hne Hq. unfold dictK in Hq.
  rewrite lookup_singleton_ne in Hq by done. discriminate Hq.
Defined.

End Examples.

(** ** More about [check] and [summarize] *)

Section CheckMore.
Context {RT : Runtime}.

(** [check] reads the file system and never changes it, and it leaves the
    configuration of the watcher alone; this holds from any state and for any
    outcome. *)
Theorem check_leaves_world (st : state) :
  st_world (check st).2 = st_world st ∧
  config (st_self (check st).2) = config (st_self st).
Proof.
  rewrite check_run. cbn zeta.
  destruct (file_read _ _) as [text|e]; [|done].
  destruct (json_load text) as [data|e]; [|done].
  assert ((∃ d, data = JDict d) ∨ ∀ d, data ≠ JDict d) as [[d ->]|Hnd]
    by (destruct data; eauto).
  - rewrite check_loaded_run. cbn zeta.
    destruct (diff_entries _ _) as [[ms rs] [e|]]; [done|].
    by destruct (get_files _ _ _).
  - match goal with |- context [check_loaded data ?s] =>
      destruct (check_loaded_not_dict data s Hnd) as (e & -> & _) end.
    done.
Qed.

(** When [check] runs to its end, the three lists are exactly: the database
    paths whose timestamp cannot be read; the database paths whose timestamp
    differs from the recorded one; the scanned paths that are neither ignored
    nor in the database. *)
Theorem check_complete_classification (cfg : Config) (w : world) text d names :
  file_read w (database cfg) = Return text →
  json_load text = Return (JDict d) →
  get_files w (watched_dir cfg) (watch_masks cfg) = Return names →
  (check (start cfg w)).1 = Return None →
  let st := (check (start cfg w)).2 in
  (∀ p, p ∈ removed st ↔
        is_Some (d !! p) ∧ ∃ e, os_path_getmtime w p = Raise e) ∧
  (∀ p, p ∈ modified st ↔
        ∃ v dt recorded,
          d !! p = Some v ∧ os_path_getmtime w p = Return dt ∧
          py_getitem v "last_modif" = Return recorded ∧
          py_float_ne dt recorded = true) ∧
  (∀ p, p ∈ added st ↔
        p ∈ names ∧ (p ∉ ignore_list cfg) ∧ d !! p = None).
Proof.
  intros Hread Hload Hscan. cbn zeta.
  rewrite (check_start_run _ _ _ _ Hread Hload).
  destruct (diff_entries w (map_to_list d)) as [[ms rs] [e|]] eqn:Hd; [done|].
  rewrite Hscan. cbn [fst snd removed modified added st_self _removed
                      _modified _added]. intros _.
  split_and!; intros p.
  - split.
    + intros Hp. destruct (diff_entries_removed _ _ _ _ _ _ Hd Hp) as [[v Hv] He].
      apply elem_of_map_to_list in Hv. eauto.
    + intros [[v Hv] [e He]]. apply elem_of_map_to_list in Hv.
      pose proof (diff_entries_complete _ _ _ _ _ _ Hd Hv) as Hc.
      by rewrite He in Hc.
  - split.
    + intros Hp.
      destruct (diff_entries_modified _ _ _ _ _ _ Hd Hp) as (v & dt & r & Hv & ?).
      apply elem_of_map_to_list in Hv. by exists v, dt, r.
    + intros (v & dt & r & Hv & Hdt & Hget & Hne).
      apply elem_of_map_to_list in Hv.
      pose proof (diff_entries_complete _ _ _ _ _ _ Hd Hv) as Hc.
      rewrite Hdt in Hc. destruct Hc as (r' & Hget' & Hc).
      apply Hc. congruence.
  - rewrite new_files_elem. split.
    + intros [[Hig Hk] Hin]. split_and!; [done..|].
      destruct (d !! p) as [v|] eqn:Hv; [|done].
      destruct Hk. by eapply key_in_items.
    + intros (Hin & Hig & Hnone). split_and!; [done| |done].
      intros Hk. apply list_elem_of_fmap in Hk as ([q v] & -> & Hv).
      apply elem_of_map_to_list in Hv. cbn in Hnone. congruence.
Qed.

(** The exit status of a [check] does not tell whether anything changed:
    once the database is loaded, its records are usable and the scan
    succeeds, [main] ends with status 0, and what is printed is the summary
    of the three lists, between the two log records. *)
Theorem check_status_ignores_drift (cfg : Config) (w : world) text d names :
  file_read w (database cfg) = Return text →
  json_load text = Return (JDict d) →
  records_usable w d →
  get_files w (watched_dir cfg) (watch_masks cfg) = Return names →
  let res := main ActCheck cfg w in
  res.1 = Exit 0 ∧
  st_out res.2 =
    [Log INFO ("Performing check ... (database file: '" +:+
               database cfg +:+ "')")]
    ++ summary_lines (st_self res.2) ++ [Log INFO "Finished."].
Proof.
  intros Hread Hload Hok Hscan. cbn zeta.
  rewrite main_run, (check_start_run _ _ _ _ Hread Hload).
  destruct (records_usable_runs _ _ Hok) as (ms & rs & ->). rewrite Hscan.
  cbn [fst snd with_out st_self st_world st_out default].
  split; [done|]. by rewrite <-app_assoc.
Qed.

(** [summarize] never fails and changes nothing but the output, to which
    it adds the rule, the title and the sections Removed, New, Modified in
    this order, each with its header, its paths indented by four blanks and
    a closing line, also when the section is empty: eight lines plus one per
    path. *)
Theorem summarize_layout (st : state) :
  ∃ lines,
    summarize st = (Return tt, State (st_self st) (st_world st) (st_out st ++ lines)) ∧
    lines =
      [Stdout (nl +:+ py_str_mul 80 "="); Stdout ("Summary:" +:+ nl)]
      ++ (Stdout "Removed:" :: ((λ p, Stdout ("    " +:+ p)) <$> removed st)
            ++ [Stdout nl])
      ++ (Stdout "New:" :: ((λ p, Stdout ("    " +:+ p)) <$> added st)
            ++ [Stdout nl])
      ++ (Stdout "Modified:" :: ((λ p, Stdout ("    " +:+ p)) <$> modified st)
            ++ [Stdout nl]) ∧
    length lines =
      8 + length (removed st) + length (added st) + length (modified st).
Proof.
  eexists. split; [apply summarize_run|]. split; [reflexivity|].
  unfold summary_lines, printer_lines.
  rewrite !length_app. cbn [length]. rewrite !length_app, !length_fmap.
  cbn [length]. unfold removed, added, modified. lia.
Qed.

End CheckMore.

(** ** More about [init] *)

Section InitMore.
Context {RT : Runtime}.

Lemma inventory_lookup w ignore names data0 data p :
  inventory w ignore names data0 = Return data →
  (p ∈ names → p ∉ ignore →
   ∃ dt, os_path_getmtime w p = Return dt ∧
         data !! p = Some (file_record dt (strftime_local dt))) ∧
  ((p ∉ names) ∨ p ∈ ignore → data !! p = data0 !! p).
Proof.
  revert data0. induction names as [|n names IH]; intros data0.
  - intros [= <-]. split; [|done]. intros Hp. by apply elem_of_nil in Hp.
  - cbn [inventory]. case_bool_decide as Hn.
    + intros Hinv. destruct (IH _ Hinv) as [IH1 IH2]. split.
      * intros Hp Hig. apply elem_of_cons in Hp as [->|Hp]; [done|]. by apply IH1.
      * intros [Hp|Hp]; apply IH2; [|by right].
        left. intros ?. apply Hp. by right.
    + destruct (os_path_getmtime w n) as [dt|e] eqn:Hdt; [|done].
      intros Hinv. destruct (IH _ Hinv) as [IH1 IH2]. split.
      * intros Hp Hig. destruct (decide (p ∈ names)) as [Hin|Hnin]; [by apply IH1|].
        apply elem_of_cons in Hp as [->|Hp]; [|done].
        exists dt. split; [done|]. rewrite IH2 by by left.
        apply lookup_insert_eq.
      * intros Hp. assert (p ≠ n) as Hne.
        { destruct Hp as [Hp|Hp]; [|by intros ->].
          intros ->. apply Hp. left. }
        rewrite IH2, lookup_insert_ne by first [done|
          destruct Hp as [Hp|Hp]; [left; intros ?; apply Hp; by right|by right]].
        done.
Qed.

(** The dictionary that the loop of [init] builds has one record for each
    scanned path outside the ignore list, holding the timestamp the file has
    now and its rendering, and nothing else; the loop changes no state. *)
Theorem init_collect_records ignore names st data st' :
  init_collect ignore names ∅ st = (Return data, st') →
  st' = st ∧
  ∀ p, match data !! p with
       | Some v =>
           p ∈ names ∧ (p ∉ ignore) ∧
           ∃ dt, os_path_getmtime (st_world st) p = Return dt ∧
                 v = file_record dt (strftime_local dt)
       | None => (p ∉ names) ∨ p ∈ ignore
       end.
Proof.
  rewrite init_collect_run. intros [= Hinv <-]. split; [done|]. intros p.
  destruct (inventory_lookup _ _ _ _ _ p Hinv) as [H1 H2].
  destruct (decide (p ∈ names)) as [Hin|Hnin].
  - destruct (decide (p ∈ ignore)) as [Hig|Hnig].
    + rewrite H2, lookup_empty by by right. by right.
    + destruct (H1 Hin Hnig) as (dt & Hdt & ->). split_and!; [done..|].
      by exists dt.
  - rewrite H2, lookup_empty by by left. by left.
Qed.

(** The backup step, when it ends normally: the world is the one before,
    with the database file moved to the backup name if it was seen; in
    either case no timestamp can be read at the database path afterwards. *)
Lemma init_backup_done db st s1 :
  init_backup db st = (Return tt, s1) →
  st_self s1 = st_self st ∧
  w_nowrite (st_world s1) = w_nowrite (st_world st) ∧
  (∃ e, os_path_getmtime (st_world s1) db = Raise e) ∧
  w_fs (st_world s1) !! db =
    (if os_path_exists (st_world st) db then None else w_fs (st_world st) !! db) ∧
  (os_path_exists (st_world st) db = true →
   ∃ f, w_fs (st_world st) !! db = Some f ∧
        st_world s1 =
          set_fs (st_world st)
            (<[backup_name db (w_clock (st_world st)) := f]>
               (delete db (w_fs (st_world st))))).
Proof.
  rewrite init_backup_run. cbn zeta.
  destruct (os_path_exists (st_world st) db) eqn:Hex.
  - unfold os_rename. destruct (w_fs (st_world st) !! db) as [f|] eqn:Hf; [|done].
    case_decide as Hren; [done|]. intros [= <-]. cbn [st_self st_world].
    assert (w_fs (set_fs (st_world st)
              (<[backup_name db (w_clock (st_world st)) := f]>
                 (delete db (w_fs (st_world st))))) !! db = None) as Hgone.
    { cbn [set_fs w_fs].
      rewrite lookup_insert_ne by apply backup_name_fresh.
      apply lookup_delete_eq. }
    split_and!; [done|done| |done|by exists f].
    unfold os_path_getmtime. case_decide; [eauto|]. rewrite Hgone. eauto.
  - intros [= <-]. split_and!; [done|done| |done|done].
    unfold os_path_exists in Hex.
    destruct (os_path_getmtime (st_world st) db); [done|eauto].
Qed.

(** The stages of a run of [init] that ends normally. *)
Lemma init_done cfg w st1 :
  init (start cfg w) = (Return None, st1) →
  ∃ s1 names data w3,
    init_backup (database cfg)
      (State (FileWatcher_new cfg) w
         [Log INFO "Performing initialization ...";
          Log INFO ("Processing '" +:+ watched_dir cfg +:+ "' directory ...")])
      = (Return tt, s1) ∧
    get_files (st_world s1) (watched_dir cfg) (watch_masks cfg) = Return names ∧
    inventory (st_world s1) (ignore_list cfg) names ∅ = Return data ∧
    file_open_w (st_world s1) tempfile = Return w3 ∧
    st1 = (init_store (database cfg) data
             (State (st_self s1)
                (file_write w3 tempfile (dict_str (JDict data)))
                (st_out s1 ++
                   [Log INFO ("Storing timestamp info about " +:+
                              pretty (size data) +:+ " files ...")]))).2.
Proof.
  rewrite init_run. cbn zeta. unfold start.
  unfold with_out. cbn [st_self st_world st_out config FileWatcher_new app].
  intros Hrun.
  destruct (init_backup _ _) as [[[]|e] s1] eqn:Hb; [|done].
  destruct (get_files (st_world s1) _ _) as [names|e] eqn:Hscan; [|done].
  destruct (inventory (st_world s1) _ _ _) as [data|e] eqn:Hinv; [|done].
  destruct (file_open_w (st_world s1) tempfile) as [w3|e] eqn:Hopen; [|done].
  injection Hrun as <-. by exists s1, names, data, w3.
Qed.

(** The database file is never part of the snapshot that [init] stores in
    it: when [init] ends normally and the database path can be written, the
    file holds the dump of a dictionary without an entry for that path. *)
Theorem init_never_records_database (cfg : Config) (w : world) st1 :
  init (start cfg w) = (Return None, st1) →
  database cfg ∉ w_nowrite w →
  ∃ data,
    f_body <$> (w_fs (st_world st1) !! database cfg)
      = Some (json_dump (JDict data)) ∧
    data !! database cfg = None.
Proof.
  intros Hrun Hwr.
  destruct (init_done _ _ _ Hrun) as (s1 & names & data & w3 & Hb & _ & Hinv & Hopen & ->).
  destruct (init_backup_done _ _ _ Hb) as (_ & Hsame & [e He] & _).
  cbn [st_world] in Hsame. exists data. split.
  - rewrite init_store_run. cbn [st_world].
    assert (w_nowrite w3 = w_nowrite w) as Hsame3.
    { unfold file_open_w in Hopen. case_decide; [done|].
      injection Hopen as <-. by rewrite <-Hsame. }
    unfold file_open_w. cbn [file_write set_fs w_nowrite].
    rewrite Hsame3, decide_False by done. cbn [snd st_world].
    unfold file_write. cbn [set_fs w_fs]. by rewrite !lookup_insert_eq.
  - destruct (inventory_lookup _ _ _ _ _ (database cfg) Hinv) as [H1 H2].
    destruct (decide (database cfg ∈ names)) as [Hin|Hnin];
      [destruct (decide (database cfg ∈ ignore_list cfg)) as [Hig|Hnig]|].
    + rewrite H2 by by right. apply lookup_empty.
    + destruct (H1 Hin Hnig) as (dt & Hdt & _). congruence.
    + rewrite H2 by by left. apply lookup_empty.
Qed.

(** When [init] ends with an exception after it moved an existing database
    file aside, it has written nothing: the world is the one before with the
    file under the backup name, and no file is left at the database path. *)
Theorem init_failure_leaves_no_database (cfg : Config) (w : world) (f : file) e :
  let db := database cfg in
  let bak := backup_name db (w_clock w) in
  w_fs w !! db = Some f →
  db ∉ w_nostat w →
  db ∉ w_norename w →
  (init (start cfg w)).1 = Raise e →
  st_world (init (start cfg w)).2 = set_fs w (<[bak := f]> (delete db (w_fs w))) ∧
  w_fs (st_world (init (start cfg w)).2) !! db = None.
Proof.
  intros db bak Hf Hstat Hren.
  rewrite init_run. cbn zeta. unfold start.
  unfold with_out. cbn [st_self st_world st_out config FileWatcher_new app].
  fold db. rewrite init_backup_run. cbn zeta. cbn [st_self st_world st_out].
  rewrite (exists_when_present _ _ _ Hf Hstat). unfold os_rename.
  rewrite Hf, decide_False by done. fold bak.
  set (w1 := set_fs w (<[bak := f]> (delete db (w_fs w)))).
  assert (w_fs w1 !! db = None) as Hgone.
  { unfold w1. cbn [set_fs w_fs].
    rewrite lookup_insert_ne by apply backup_name_fresh. apply lookup_delete_eq. }
  cbn [st_self st_world st_out].
  destruct (get_files w1 _ _) as [names|e0]; [|done].
  destruct (inventory w1 _ _ _) as [data|e0]; [|done].
  destruct (file_open_w w1 tempfile) as [w3|e0]; [|done].
  done.
Qed.

(** A database path that cannot be written does not make [init] fail: if
    nothing else goes wrong, the refusal is logged as an error, the process
    ends with status 0, and the database path holds no new snapshot (nothing
    at all if a file was there, since it was moved to the backup name). *)
Theorem init_write_refused_status_0 (cfg : Config) (w : world) :
  let db := database cfg in
  db ∈ w_nowrite w →
  (init (start cfg w)).1 = Return None →
  (main ActInit cfg w).1 = Exit 0 ∧
  (∃ out,
     st_out (init (start cfg w)).2 =
       out ++ [Log ERROR ("Could not write data into '" +:+ db +:+
                          "', reason: Permission denied'")]) ∧
  w_fs (st_world (init (start cfg w)).2) !! db =
    (if os_path_exists w db then None else w_fs w !! db).
Proof.
  intros db Hwr Hres.
  destruct (init (start cfg w)) as [r st1] eqn:Hrun. cbn [fst] in Hres. subst r.
  split.
  { rewrite main_run, Hrun. done. }
  destruct (init_done _ _ _ Hrun) as (s1 & names & data & w3 & Hb & _ & _ & Hopen & ->).
  destruct (init_backup_done _ _ _ Hb) as (_ & Hsame & _ & Hdb & _).
  cbn [st_world] in Hsame, Hdb. fold db in Hdb.
  assert (w_nowrite w3 = w_nowrite w ∧ db ≠ tempfile ∧
          w_fs w3 !! db = w_fs (st_world s1) !! db) as (Hsame3 & Hne & Hdb3).
  { unfold file_open_w in Hopen. case_decide as Htmp; [done|].
    injection Hopen as <-. rewrite Hsame in Htmp.
    assert (db ≠ tempfile) by (intros Heq; apply Htmp; by rewrite <-Heq).
    split_and!; [by rewrite <-Hsame|done|].
    cbn [set_fs w_fs]. by apply lookup_insert_ne. }
  assert (file_open_w (file_write w3 tempfile (dict_str (JDict data))) db
          = Raise (Exn IOError "Permission denied")) as Hden.
  { unfold file_open_w. cbn [file_write set_fs w_nowrite].
    rewrite Hsame3. by rewrite decide_True. }
  rewrite init_store_run. cbn [st_world st_out]. fold db. rewrite Hden.
  cbn [snd with_out st_world st_out exn_msg]. split.
  - eexists. reflexivity.
  - rewrite file_write_other by done. by rewrite Hdb3.
Qed.

End InitMore.

(** ** Command line and configuration file *)

(** The two functions that build the configuration object.  The option
    parser ([optparse]) and the file parser ([RawConfigParser]) belong to the
    Python library: [process_cli_args] is embedded from the point where
    [parser.parse_args] has returned, and [process_config_file] takes what
    [parser.items("general")] yields as an argument.  Both end the process
    through [helpers.print_msg_exit]; the embedding records that call as the
    result. *)

Definition DATABASE_FILE : string := "filewatcher-db.json".
Definition CONFIGURATION_FILE : string := "filewatcher.conf".

(** The values of the three options after [parser.parse_args], the empty
    string for an option that was not given, and later the action. *)
Record Options := {
  opt_config_file : string;
  opt_watched_dir : string;
  opt_database : string;
  opt_action : string
}.

(** An attribute of the configuration object: a string from the command
    line or a list from the configuration file. *)
Inductive attr :=
  | AStr (s : string)
  | AList (l : list string).

(** The attributes of the object that [process_cli_args] returns. *)
Definition options_attrs (o : Options) : gmap string attr :=
  <["action" := AStr (opt_action o)]>
    (<["database" := AStr (opt_database o)]>
       (<["watched_dir" := AStr (opt_watched_dir o)]>
          (<["config_file" := AStr (opt_config_file o)]> ∅))).

Definition slash : Ascii.ascii := Ascii.ascii_of_nat 47.
Definition comma : Ascii.ascii := Ascii.ascii_of_nat 44.

(** [s.endswith('/')] *)
Fixpoint ends_with_slash (s : string) : bool :=
  match s with
  | EmptyString => false
  | String c EmptyString => Ascii.eqb c slash
  | String _ s' => ends_with_slash s'
  end.

(** [os.path.join(a, b)] of [posixpath] *)
Definition os_path_join (a b : string) : string :=
  match b with
  | String c _ =>
      if Ascii.eqb c slash then b
      else if String.eqb a EmptyString || ends_with_slash a then a +:+ b
      else a +:+ "/" +:+ b
  | EmptyString =>
      if String.eqb a EmptyString || ends_with_slash a then a +:+ b
      else a +:+ "/" +:+ b
  end.

(** [s.split(c)] for a separator of one character *)
Fixpoint py_split (sep : Ascii.ascii) (s : string) : list string :=
  match s with
  | EmptyString => [EmptyString]
  | String c s' =>
      if Ascii.eqb c sep then EmptyString :: py_split sep s'
      else match py_split sep s' with
           | x :: xs => String c x :: xs
           | [] => [String c EmptyString]
           end
  end.

(** The characters that [strip] removes: blank, tab, line feed, vertical
    tab, form feed, carriage return. *)
Definition is_space (c : Ascii.ascii) : bool :=
  let n := Ascii.nat_of_ascii c in
  (n =? 32) || ((9 <=? n) && (n <=? 13)).

Fixpoint py_lstrip (s : string) : string :=
  match s with
  | EmptyString => EmptyString
  | String c s' => if is_space c then py_lstrip s' else s
  end.

Fixpoint py_rstrip (s : string) : string :=
  match s with
  | EmptyString => EmptyString
  | String c s' =>
      match py_rstrip s' with
      | EmptyString => if is_space c then EmptyString else String c EmptyString
      | r => String c r
      end
  end.

(** [s.strip()] *)
Definition py_strip (s : string) : string := py_rstrip (py_lstrip s).

(** Lines 82-84: the list stored for one value of the file. *)
Definition config_values (value : string) : list string :=
  py_strip <$> py_split comma value.

(** How a call of one of the two functions ends. *)
Inductive setup (A : Type) : Type :=
  | Done (a : A)                              (* it returns *)
  | MsgExit (msg : string) (exit_code : Z)    (* helpers.print_msg_exit *)
  | Uncaught (what : string).                 (* an exception leaves it *)
Arguments Done {A} a.
Arguments MsgExit {A} msg exit_code.
Arguments Uncaught {A} what.

(** [process_cli_args], after [parser.parse_args(cli_args)] returned
    [(opts, args)]; [cwd] is [os.getcwd()]. *)
Definition process_cli_args (opts : Options) (args : list string)
    (cwd : string) (w : world) : setup Options * list event :=
  match args with
  | [_; action] =>
      if bool_decide (action ∈ ["init"; "check"]) then
        let '(config_file, log1) :=
          if String.eqb (opt_config_file opts) EmptyString then
            let config_file := os_path_join cwd CONFIGURATION_FILE in
            let first :=
              Log INFO ("Option --config not specified, trying to load '" +:+
                        CONFIGURATION_FILE +:+ "' from the directory '" +:+
                        cwd +:+ "' ...") in
            if os_path_exists w config_file
            then (config_file,
                  [first; Log INFO ("File '" +:+ config_file +:+ "' exists.")])
            else (opt_config_file opts,
                  [first; Log INFO "No configuration file will be loaded."])
          else (opt_config_file opts, []) in
        let '(watched, log2) :=
          if String.eqb (opt_watched_dir opts) EmptyString then
            (cwd, [Log INFO ("Option --directory not specified, working in '"
                             +:+ cwd +:+ "'.")])
          else (opt_watched_dir opts, []) in
        let '(db, log3) :=
          if String.eqb (opt_database opts) EmptyString then
            let db := os_path_join watched DATABASE_FILE in
            (db, [Log INFO ("Option --database not specified, using '" +:+
                            db +:+ "'.")])
          else (opt_database opts, []) in
        (Done {| opt_config_file := config_file; opt_watched_dir := watched;
                 opt_database := db; opt_action := action |},
         log1 ++ log2 ++ log3)
      else
        (MsgExit ("None, wrong or more than allowed arguments specified, " +:+
                  "try --help") 1, [])
  | _ =>
      (MsgExit ("None, wrong or more than allowed arguments specified, " +:+
                "try --help") 1, [])
  end.

(** What [parser.items("general")] does after [parser.read(path)]. *)
Inductive general_section :=
  | Items (l : list (string * string))   (* the options of the section *)
  | ItemsValueError (reason : string)
  | ItemsIndexError (reason : string)
  | ItemsOtherError (reason : string).   (* any other exception *)

(** [process_config_file], for the object [process_cli_args] returned;
    the result is the attributes of the object. *)
Definition process_config_file (config : Options) (w : world)
    (parsed : general_section) : setup (gmap string attr) * list event :=
  if negb (os_path_exists w (opt_config_file config)) then
    (Done (<["ignore_list" := AList []]>
             (<["watch_masks" := AList []]> (options_attrs config))),
     [Log INFO ("Specified config file '" +:+ opt_config_file config +:+
                "' does not exist, using default values.")])
  else
    let out :=
      [Log INFO ("Processing config file '" +:+ opt_config_file config +:+
                 "' ...")] in
    match parsed with
    | Items l =>
        (Done (foldl (λ obj nv, <[nv.1 := AList (config_values nv.2)]> obj)
                     (options_attrs config) l),
         out)
    | ItemsValueError reason | ItemsIndexError reason =>
        (MsgExit ("Error while processing configuration file, reason: " +:+
                  reason) 1, out)
    | ItemsOtherError reason => (Uncaught reason, out)
    end.

(** ** Properties of the configuration *)

(** The number of occurrences of a character, whether it occurs, and the
    first and the last character of a string. *)
Fixpoint count_char (c : Ascii.ascii) (s : string) : nat :=
  match s with
  | EmptyString => 0
  | String d s' => (if Ascii.eqb d c then 1 else 0) + count_char c s'
  end.

Fixpoint has_char (c : Ascii.ascii) (s : string) : bool :=
  match s with
  | EmptyString => false
  | String d s' => Ascii.eqb d c || has_char c s'
  end.

Definition first_char (s : string) : option Ascii.ascii :=
  match s with
  | EmptyString => None
  | String c _ => Some c
  end.

Fixpoint last_char (s : string) : option Ascii.ascii :=
  match s with
  | EmptyString => None
  | String c s' =>
      match last_char s' with
      | Some d => Some d
      | None => Some c
      end
  end.

Lemma String_app_assoc (a b c : string) : (a +:+ b) +:+ c = a +:+ b +:+ c.
Proof.
  induction a as [|x a IH]; [done|].
  change (String x ((a +:+ b) +:+ c) = String x (a +:+ b +:+ c)).
  by rewrite IH.
Qed.

Lemma String_app_nonempty (a b : string) :
  b ≠ EmptyString → a +:+ b ≠ EmptyString.
Proof. by destruct a. Qed.

(** The default database path ends in the default file name. *)
Lemma os_path_join_DATABASE_FILE a :
  ∃ pre, os_path_join a DATABASE_FILE = pre +:+ DATABASE_FILE.
Proof.
  unfold os_path_join, DATABASE_FILE.
  cbn [Ascii.eqb slash Ascii.ascii_of_nat].
  change (Ascii.eqb _ slash) with false. cbn match.
  destruct (_ || _); [by exists a|].
  exists (a +:+ "/"). by rewrite String_app_assoc.
Qed.

Lemma os_path_join_DATABASE_FILE_nonempty a :
  os_path_join a DATABASE_FILE ≠ EmptyString.
Proof.
  destruct (os_path_join_DATABASE_FILE a) as [pre ->].
  by apply String_app_nonempty.
Qed.

Lemma py_split_nonempty sep s : py_split sep s ≠ [].
Proof.
  destruct s as [|c s]; [done|]. cbn [py_split].
  destruct (Ascii.eqb c sep); [done|]. by destruct (py_split sep s).
Qed.

Lemma py_split_length sep s : length (py_split sep s) = S (count_char sep s).
Proof.
  induction s as [|c s IH]; [done|]. cbn [py_split count_char].
  destruct (Ascii.eqb c sep); cbn [length Nat.add]; [by rewrite IH|].
  pose proof (py_split_nonempty sep s).
  destruct (py_split sep s) as [|x xs]; [done|]. cbn [length] in *. lia.
Qed.

Lemma py_split_pieces sep s x : x ∈ py_split sep s → has_char sep x = false.
Proof.
  revert x. induction s as [|c s IH]; intros x; cbn [py_split].
  - intros Hx. apply list_elem_of_singleton in Hx. by subst.
  - destruct (Ascii.eqb c sep) eqn:Hc.
    + intros Hx. apply elem_of_cons in Hx as [->|Hx]; [done|by apply IH].
    + pose proof (py_split_nonempty sep s).
      destruct (py_split sep s) as [|y ys]; [done|].
      intros Hx. apply elem_of_cons in Hx as [->|Hx].
      * cbn [has_char]. rewrite Hc. apply IH. left.
      * apply IH. by right.
Qed.

Lemma py_lstrip_chars c s : has_char c (py_lstrip s) = true → has_char c s = true.
Proof.
  induction s as [|d s IH]; [done|]. cbn [py_lstrip].
  destruct (is_space d); [|done]. cbn [has_char]. intros H.
  rewrite (IH H). apply orb_true_r.
Qed.

Lemma py_rstrip_chars c s : has_char c (py_rstrip s) = true → has_char c s = true.
Proof.
  induction s as [|d s IH]; [done|]. cbn [py_rstrip has_char].
  destruct (py_rstrip s) as [|e r].
  - destruct (is_space d); [done|]. cbn [has_char].
    rewrite orb_false_r. intros ->. done.
  - cbn [has_char] in *. destruct (Ascii.eqb d c); [done|].
    cbn [orb]. intros H. by apply IH.
Qed.

Lemma py_lstrip_first s c :
  first_char (py_lstrip s) = Some c → is_space c = false.
Proof.
  induction s as [|d s IH]; [done|]. cbn [py_lstrip].
  destruct (is_space d) eqn:Hd; [done|]. by intros [= <-].
Qed.

Lemma py_rstrip_first s c :
  first_char (py_rstrip s) = Some c → first_char s = Some c.
Proof.
  destruct s as [|d s]; [done|]. cbn [py_rstrip].
  destruct (py_rstrip s); [by destruct (is_space d)|done].
Qed.

Lemma py_rstrip_last s c :
  last_char (py_rstrip s) = Some c → is_space c = false.
Proof.
  induction s as [|d s IH]; [done|]. cbn [py_rstrip].
  destruct (py_rstrip s) as [|e r].
  - destruct (is_space d) eqn:Hd; [done|]. by intros [= <-].
  - cbn [last_char] in *. destruct (last_char r); [done|]. done.
Qed.

(** The list stored for a value of the configuration file has one element
    more than the value has commas, so it is never empty; no element contains
    a comma, and none starts or ends with a blank character. *)
Theorem config_values_shape (value : string) :
  length (config_values value) = S (count_char comma value) ∧
  ∀ x, x ∈ config_values value →
       has_char comma x = false ∧
       (∀ c, first_char x = Some c → is_space c = false) ∧
       (∀ c, last_char x = Some c → is_space c = false).
Proof.
  unfold config_values. split.
  - by rewrite length_fmap, py_split_length.
  - intros x Hx. apply list_elem_of_fmap in Hx as (y & -> & Hy).
    apply py_split_pieces in Hy. unfold py_strip. split_and!.
    + destruct (has_char comma (py_rstrip (py_lstrip y))) eqn:Hc; [|done].
      apply py_rstrip_chars, py_lstrip_chars in Hc. congruence.
    + intros c Hc. apply py_rstrip_first in Hc. by eapply py_lstrip_first.
    + intros c. apply py_rstrip_last.
Qed.

(** [process_cli_args] returns only for a command line of two arguments
    whose second is [init] or [check], which becomes the action; for any
    other it calls [print_msg_exit] with exit code 1 before it logs
    anything. *)
Theorem process_cli_args_action opts args cwd w :
  match (process_cli_args opts args cwd w).1 with
  | Done o =>
      (∃ prog, args = [prog; opt_action o]) ∧
      (opt_action o = "init" ∨ opt_action o = "check")
  | MsgExit _ code =>
      code = 1%Z ∧ (process_cli_args opts args cwd w).2 = [] ∧
      ∀ prog action, args = [prog; action] →
                     action ≠ "init" ∧ action ≠ "check"
  | Uncaught _ => False
  end.
Proof.
  unfold process_cli_args.
  destruct args as [|prog [|action [|more args]]];
    try (cbn [fst snd]; split_and!; [done..|]; by intros ?? [=]).
  case_bool_decide as Hact.
  - destruct (if String.eqb (opt_config_file opts) _ then _ else _) as [cf l1].
    destruct (if String.eqb (opt_watched_dir opts) _ then _ else _) as [wd l2].
    destruct (if String.eqb (opt_database opts) _ then _ else _) as [db l3].
    cbn [fst opt_action]. split; [by exists prog|].
    apply elem_of_cons in Hact as [->|Hact]; [by left|].
    apply list_elem_of_singleton in Hact. by right.
  - cbn [fst snd]. split_and!; [done..|]. intros ?? [= -> ->].
    split; intros ->; apply Hact; [left|right; left].
Qed.

(** When [process_cli_args] returns, options that were given are kept
    as they are; a missing directory becomes the current directory; a missing
    database becomes [filewatcher-db.json] joined to the watched directory,
    so the database path is never empty; and a configuration file that was
    not given becomes the [filewatcher.conf] of the current directory when
    that file exists, and stays empty when it does not. *)
Theorem process_cli_args_defaults opts args cwd w o :
  (process_cli_args opts args cwd w).1 = Done o →
  opt_database o ≠ EmptyString ∧
  (opt_database opts ≠ EmptyString → opt_database o = opt_database opts) ∧
  (opt_database opts = EmptyString →
   opt_database o = os_path_join (opt_watched_dir o) DATABASE_FILE) ∧
  (opt_watched_dir opts ≠ EmptyString → opt_watched_dir o = opt_watched_dir opts) ∧
  (opt_watched_dir opts = EmptyString → opt_watched_dir o = cwd) ∧
  (opt_config_file opts ≠ EmptyString → opt_config_file o = opt_config_file opts) ∧
  (opt_config_file opts = EmptyString →
   opt_config_file o =
     if os_path_exists w (os_path_join cwd CONFIGURATION_FILE)
     then os_path_join cwd CONFIGURATION_FILE
     else EmptyString).
Proof.
  pose proof (os_path_join_DATABASE_FILE_nonempty cwd) as Hcwd.
  pose proof (os_path_join_DATABASE_FILE_nonempty (opt_watched_dir opts)) as Hdir.
  unfold process_cli_args.
  destruct args as [|prog [|action [|more args]]]; try done.
  case_bool_decide as Hact; [|done].
  generalize dependent (os_path_join cwd DATABASE_FILE).
  generalize dependent (os_path_join (opt_watched_dir opts) DATABASE_FILE).
  generalize (os_path_join cwd CONFIGURATION_FILE).
  intros cf db_dir Hdir db_cwd Hcwd.
  destruct (String.eqb_spec (opt_config_file opts) EmptyString) as [Hcf|Hcf];
  destruct (String.eqb_spec (opt_watched_dir opts) EmptyString) as [Hwd|Hwd];
  destruct (String.eqb_spec (opt_database opts) EmptyString) as [Hdb|Hdb];
  try destruct (os_path_exists w cf) eqn:Hex;
  cbn [fst]; intros [= <-];
  cbn [opt_database opt_watched_dir opt_config_file];
  split_and!; try done;
  destruct (_ || _); by apply String_app_nonempty.
Qed.

Lemma setattr_fold_other (l : list (string * string)) (obj : gmap string attr) name :
  name ∉ l.*1 →
  foldl (λ obj nv, <[nv.1 := AList (config_values nv.2)]> obj) obj l !! name
    = obj !! name.
Proof.
  revert obj. induction l as [|[n v] l IH]; intros obj Hname; [done|].
  cbn [foldl fst snd]. rewrite IH.
  - apply lookup_insert_ne. intros ->. apply Hname. left.
  - intros Hin. apply Hname. by right.
Qed.

Lemma setattr_fold_set (l : list (string * string)) (obj : gmap string attr)
    name value :
  NoDup l.*1 → (name, value) ∈ l →
  foldl (λ obj nv, <[nv.1 := AList (config_values nv.2)]> obj) obj l !! name
    = Some (AList (config_values value)).
Proof.
  revert obj. induction l as [|[n v] l IH]; intros obj Hnd Hin.
  - by apply elem_of_nil in Hin.
  - cbn [fmap list_fmap fst] in Hnd. apply NoDup_cons in Hnd as [Hn Hnd].
    cbn [foldl fst snd]. apply elem_of_cons in Hin as [[= -> ->]|Hin].
    + rewrite setattr_fold_other by done. apply lookup_insert_eq.
    + by apply IH.
Qed.

(** When the configuration file exists and its section is read, every
    option of the section becomes an attribute holding the list of its
    trimmed values, also when the name is that of a command-line attribute
    (which is then replaced by a list); every other attribute is as the
    command line left it.  No default is supplied: without an option
    [watch_masks] or [ignore_list] in the file, the object has no such
    attribute. *)
Theorem process_config_file_attributes config w l :
  os_path_exists w (opt_config_file config) = true →
  NoDup l.*1 →
  ∃ attrs out,
    process_config_file config w (Items l) = (Done attrs, out) ∧
    (∀ name value, (name, value) ∈ l →
                   attrs !! name = Some (AList (config_values value))) ∧
    (∀ name, name ∉ l.*1 → attrs !! name = options_attrs config !! name) ∧
    ("watch_masks" ∉ l.*1 → attrs !! "watch_masks" = None) ∧
    ("ignore_list" ∉ l.*1 → attrs !! "ignore_list" = None).
Proof.
  intros Hex Hnd. unfold process_config_file. rewrite Hex. cbn [negb].
  eexists _, _. split; [reflexivity|]. split_and!.
  - intros name value. by apply setattr_fold_set.
  - intros name. apply setattr_fold_other.
  - intros Hn. by rewrite setattr_fold_other.
  - intros Hn. by rewrite setattr_fold_other.
Qed.

Lemma process_cli_args_config_file opts args cwd w o :
  (process_cli_args opts args cwd w).1 = Done o →
  opt_config_file opts = EmptyString →
  opt_config_file o = EmptyString ∨
  (opt_config_file o = os_path_join cwd CONFIGURATION_FILE ∧
   os_path_exists w (opt_config_file o) = true).
Proof.
  unfold process_cli_args.
  destruct args as [|prog [|action [|more args]]]; try done.
  case_bool_decide as Hact; [|done]. intros Hrun Hcf. rewrite Hcf in Hrun.
  cbn [String.eqb] in Hrun.
  destruct (os_path_exists w (os_path_join cwd CONFIGURATION_FILE)) eqn:Hex;
    destruct (String.eqb (opt_watched_dir opts) EmptyString);
    destruct (String.eqb (opt_database opts) EmptyString);
    cbn [fst] in Hrun; injection Hrun as <-; cbn [opt_config_file];
    first [by left|by right].
Qed.

(** Without [--config] and without a [filewatcher.conf] in the current
    directory, the two functions together give an object with an empty mask
    list and an empty ignore list, whatever the file parser would say, and
    with the directory and the database of the command line or their
    defaults.  The premise on the empty path says that it names no file. *)
Theorem no_config_file_gives_defaults opts args cwd w o parsed :
  opt_config_file opts = EmptyString →
  os_path_exists w (os_path_join cwd CONFIGURATION_FILE) = false →
  os_path_exists w EmptyString = false →
  (process_cli_args opts args cwd w).1 = Done o →
  ∃ attrs out,
    process_config_file o w parsed = (Done attrs, out) ∧
    attrs !! "watch_masks" = Some (AList []) ∧
    attrs !! "ignore_list" = Some (AList []) ∧
    attrs !! "watched_dir" = Some (AStr (opt_watched_dir o)) ∧
    attrs !! "database" = Some (AStr (opt_database o)) ∧
    attrs !! "action" = Some (AStr (opt_action o)).
Proof.
  intros Hcf Hnone Hempty Hcli.
  assert (opt_config_file o = EmptyString) as Ho.
  { destruct (process_cli_args_config_file opts args cwd w o Hcli Hcf)
      as [H|[H1 H2]]; [done|]. rewrite H1 in H2. congruence. }
  unfold process_config_file. rewrite Ho, Hempty. cbn [negb].
  eexists _, _. split; [reflexivity|]. by split_and!.
Qed.

(** ** Failures around the scan and the scratch file *)

Section Failures.
Context {RT : Runtime}.

(** The scan of [check] comes after the loop over the database.  When it
    raises, the exception leaves [check]: the process ends with a traceback,
    nothing is printed and nothing is reported as new, although the removed
    and modified paths had been found. *)
Theorem check_scan_failure (cfg : Config) (w : world) text d e :
  file_read w (database cfg) = Return text →
  json_load text = Return (JDict d) →
  records_usable w d →
  get_files w (watched_dir cfg) (watch_masks cfg) = Raise e →
  let res := main ActCheck cfg w in
  res.1 = Traceback e ∧
  st_out res.2 =
    [Log INFO ("Performing check ... (database file: '" +:+
               database cfg +:+ "')")] ∧
  added res.2 = [] ∧
  ∃ rs ms, diff_entries w (map_to_list d) = (ms, rs, None) ∧
           removed res.2 = rs ∧ modified res.2 = ms.
Proof.
  intros Hread Hload Hok Hscan. cbn zeta.
  rewrite main_run, (check_start_run _ _ _ _ Hread Hload).
  destruct (records_usable_runs _ _ Hok) as (ms & rs & Hd). rewrite Hd, Hscan.
  cbn [fst snd]. split_and!; [done..|]. by exists rs, ms.
Qed.

(** When the rename of an existing database file is refused, [init] ends
    with that [OSError] before it scans or writes anything: the world is
    unchanged and the process ends with a traceback. *)
Theorem init_rename_refused (cfg : Config) (w : world) (f : file) :
  w_fs w !! database cfg = Some f →
  database cfg ∉ w_nostat w →
  database cfg ∈ w_norename w →
  ∃ e, (main ActInit cfg w).1 = Traceback e ∧ exn_cls e = OSError ∧
       st_world (main ActInit cfg w).2 = w.
Proof.
  intros Hf Hstat Hren. rewrite main_run, init_run. cbn zeta.
  unfold start, with_out. cbn [st_self st_world st_out config FileWatcher_new].
  rewrite init_backup_run. cbn zeta. cbn [st_world].
  rewrite (exists_when_present _ _ _ Hf Hstat). unfold os_rename.
  rewrite Hf, decide_True by done. cbn [fst snd st_world].
  by eexists.
Qed.

(** A run of [init] that ends normally leaves the scratch file
    [tempfiledata.txt] behind, whatever was at that path before (unless the
    database has this very path): it holds the text of the dictionary that
    the loop of [init] built from the scan made after the backup step. *)
Theorem init_leaves_scratch_file (cfg : Config) (w : world) st1 :
  init (start cfg w) = (Return None, st1) →
  database cfg ≠ tempfile →
  ∃ s1 names data,
    init_backup (database cfg)
      (State (FileWatcher_new cfg) w
         [Log INFO "Performing initialization ...";
          Log INFO ("Processing '" +:+ watched_dir cfg +:+ "' directory ...")])
      = (Return tt, s1) ∧
    get_files (st_world s1) (watched_dir cfg) (watch_masks cfg) = Return names ∧
    init_collect (ignore_list cfg) names ∅ s1 = (Return data, s1) ∧
    w_fs (st_world st1) !! tempfile
      = Some (File (w_clock w) (dict_str (JDict data))).
Proof.
  intros Hrun Hne.
  destruct (init_done _ _ _ Hrun) as (s1 & names & data & w3 & Hb & Hscan & Hinv & Hopen & ->).
  exists s1, names, data. split_and!; [done|done| |].
  { rewrite init_collect_run. by rewrite Hinv. }
  assert (w_clock (st_world s1) = w_clock w) as Hclock.
  { rewrite init_backup_run in Hb. cbn zeta in Hb. cbn [st_world] in Hb.
    destruct (os_path_exists w (database cfg)); [|by injection Hb as <-].
    unfold os_rename in Hb. destruct (w_fs w !! database cfg); [|done].
    case_decide; [done|]. by injection Hb as <-. }
  rewrite init_store_other by done. cbn [st_world].
  unfold file_open_w in Hopen. case_decide; [done|]. injection Hopen as <-.
  unfold file_write. cbn [set_fs w_fs w_clock].
  rewrite !lookup_insert_eq. cbn [f_body]. by rewrite Hclock.
Qed.

End Failures.

(** ** Further theorems at work *)

Section MoreExamples.
Import Demo.

Ltac computed :=
  lazymatch goal with
  | |- ?P => refine (@bool_decide_unpack P _ _); vm_compute; exact I
  end.

(** The tree of [worldB] with a file that cannot be examined, and with a
    database path that cannot be written. *)
Definition worldNoStat : world :=
  World (w_fs worldB) {["/d/b.txt"]} ∅ ∅ ∅ (secs 1000).

Definition worldReadOnly : world :=
  World (w_fs worldB) ∅ ∅ {["/db.json"]} ∅ (secs 1000).

(** A tree with a configuration file, and the object of a command line
    that names it. *)
Definition worldConf : world :=
  mkworld (filesB ++ [("/d/fw.conf", File (secs 3) "[general]")]).

Definition optionsConf : Options :=
  {| opt_config_file := "/d/fw.conf"; opt_watched_dir := "/d";
     opt_database := "/db.json"; opt_action := "init" |}.

Definition optionsNone : Options :=
  {| opt_config_file := EmptyString; opt_watched_dir := EmptyString;
     opt_database := EmptyString; opt_action := EmptyString |}.

(** The tree of [worldB] with a [filewatcher.conf] in [/d], and what
    [process_cli_args] makes of an empty command line there. *)
Definition worldPicked : world :=
  mkworld (filesB ++ [("/d/filewatcher.conf", File (secs 3) "[general]")]).

Definition optionsPicked : Options :=
  {| opt_config_file := "/d/filewatcher.conf"; opt_watched_dir := "/d";
     opt_database := "/d/filewatcher-db.json"; opt_action := "check" |}.

Definition optionsDefault : Options :=
  {| opt_config_file := EmptyString; opt_watched_dir := "/d";
     opt_database := "/d/filewatcher-db.json"; opt_action := "check" |}.

(** [c.txt] is removed: it is in the database and cannot be examined. *)
Lemma check_complete_classification_witness :
  "/d/c.txt" ∈ removed (check (RT := rtB) (start cfgB worldB)).2 ↔
  is_Some (dictB !! "/d/c.txt") ∧
  ∃ e, os_path_getmtime worldB "/d/c.txt" = Raise e.
Proof.
  destruct (check_complete_classification (RT := rtB) cfgB worldB
              (show (JDict dictB)) dictB
              ["/d/skip.txt"; "/d/a.txt"; "/d/b.txt"]) as (H & _ & _);
    [vm_compute; reflexivity..|].
  apply H.
Defined.

(** Three differences are reported, and the status is 0. *)
Lemma check_status_ignores_drift_witness :
  (main (RT := rtB) ActCheck cfgB worldB).1 = Exit 0.
Proof.
  refine (proj1 (check_status_ignores_drift (RT := rtB) cfgB worldB
                   (show (JDict dictB)) dictB
                   ["/d/skip.txt"; "/d/a.txt"; "/d/b.txt"] _ _ _ _)).
  - vm_compute. reflexivity.
  - vm_compute. reflexivity.
  - apply records_checked_usable. vm_compute. reflexivity.
  - vm_compute. reflexivity.
Defined.

(** The loop of [init] over the three scanned files, one of them ignored. *)
Lemma init_collect_records_witness :
  match snapshot [("/d/a.txt", 200); ("/d/b.txt", 7)]%positive !! "/d/a.txt" with
  | Some v =>
      "/d/a.txt" ∈ ["/d/skip.txt"; "/d/a.txt"; "/d/b.txt"] ∧
      ("/d/a.txt" ∉ ["/d/skip.txt"]) ∧
      ∃ dt, os_path_getmtime worldB "/d/a.txt" = Return dt ∧
            v = file_record dt (strftime_local (Runtime := rtB) dt)
  | None => ("/d/a.txt" ∉ ["/d/skip.txt"; "/d/a.txt"; "/d/b.txt"]) ∨
            "/d/a.txt" ∈ ["/d/skip.txt"]
  end.
Proof.
  refine (proj2 (init_collect_records (RT := rtB) ["/d/skip.txt"]
                   ["/d/skip.txt"; "/d/a.txt"; "/d/b.txt"]
                   (start cfgB worldB)
                   (snapshot [("/d/a.txt", 200); ("/d/b.txt", 7)]%positive)
                   (start cfgB worldB) _) "/d/a.txt").
  vm_compute. reflexivity.
Defined.

(** [init] on the tree of [worldB]. *)
Lemma init_never_records_database_witness :
  ∃ data,
    f_body <$> (w_fs (st_world (init (RT := rtB) (start cfgB worldB)).2)
                  !! database cfgB)
      = Some (json_dump (Runtime := rtB) (JDict data)) ∧
    data !! database cfgB = None.
Proof.
  apply (init_never_records_database (RT := rtB) cfgB worldB).
  - vm_compute. reflexivity.
  - computed.
Defined.

(** [init] stops at [b.txt]; the database file is then only under its
    backup name. *)
Lemma init_failure_leaves_no_database_witness :
  w_fs (st_world (init (RT := rtB) (start cfgB worldNoStat)).2) !! "/db.json"
  = None.
Proof.
  refine (proj2 (init_failure_leaves_no_database (RT := rtB) cfgB worldNoStat
                   (File (secs 5) (show (JDict dictB)))
                   (Exn OSError "Permission denied") _ _ _ _)).
  - vm_compute. reflexivity.
  - computed.
  - computed.
  - vm_compute. reflexivity.
Defined.

(** The database path is read-only: status 0, no database afterwards. *)
Lemma init_write_refused_status_0_witness :
  (main (RT := rtB) ActInit cfgB worldReadOnly).1 = Exit 0 ∧
  w_fs (st_world (init (RT := rtB) (start cfgB worldReadOnly)).2) !! "/db.json"
  = None.
Proof.
  destruct (init_write_refused_status_0 (RT := rtB) cfgB worldReadOnly)
    as (Hexit & _ & Hdb).
  - computed.
  - vm_compute. reflexivity.
  - split; [exact Hexit|]. refine (eq_trans Hdb _). vm_compute. reflexivity.
Defined.

(** [check] without any option, run in [/d], where [filewatcher.conf]
    exists: the file is picked up, and the database is placed in [/d]. *)
Lemma process_cli_args_defaults_witness :
  opt_config_file optionsPicked = "/d/filewatcher.conf" ∧
  opt_database optionsPicked = "/d/filewatcher-db.json".
Proof.
  destruct (process_cli_args_defaults optionsNone ["filewatcher.py"; "check"]
              "/d" worldPicked optionsPicked) as (_ & _ & Hdb & _ & _ & _ & Hcf).
  - vm_compute. reflexivity.
  - split.
    + refine (eq_trans (Hcf eq_refl) _). vm_compute. reflexivity.
    + refine (eq_trans (Hdb eq_refl) _). vm_compute. reflexivity.
Defined.

(** A file with masks and with an option named like the database. *)
Lemma process_config_file_attributes_witness :
  ∃ attrs out,
    process_config_file optionsConf worldConf
      (Items [("watch_masks", "*.txt, *.log"); ("database", "other.json")])
      = (Done attrs, out) ∧
    attrs !! "watch_masks" = Some (AList ["*.txt"; "*.log"]) ∧
    attrs !! "database" = Some (AList ["other.json"]) ∧
    attrs !! "ignore_list" = None.
Proof.
  destruct (process_config_file_attributes optionsConf worldConf
              [("watch_masks", "*.txt, *.log"); ("database", "other.json")])
    as (attrs & out & Hrun & Hset & _ & _ & Hign).
  - vm_compute. reflexivity.
  - computed.
  - exists attrs, out. split_and!; [exact Hrun| | |].
    + apply (Hset "watch_masks" "*.txt, *.log"). computed.
    + apply (Hset "database" "other.json"). computed.
    + apply Hign. computed.
Defined.

(** No [--config], and no [filewatcher.conf] in [/d]. *)
Lemma no_config_file_gives_defaults_witness :
  ∃ attrs out,
    process_config_file optionsDefault worldB (Items []) = (Done attrs, out) ∧
    attrs !! "watch_masks" = Some (AList []) ∧
    attrs !! "ignore_list" = Some (AList []) ∧
    attrs !! "watched_dir" = Some (AStr (opt_watched_dir optionsDefault)) ∧
    attrs !! "database" = Some (AStr (opt_database optionsDefault)) ∧
    attrs !! "action" = Some (AStr (opt_action optionsDefault)).
Proof.
  apply (no_config_file_gives_defaults optionsNone ["filewatcher.py"; "check"]
           "/d" worldB optionsDefault (Items []));
    vm_compute; reflexivity.
Defined.

(** A runtime whose scan fails. *)
Definition rtScanFails : Runtime := {|
  json_dump := show;
  json_load := read [JDict dictB];
  get_files := λ _ _ _, Raise (Exn OtherError "not a directory");
  float_str := show_float;
  strftime_local := λ f, "2012-01-01 00:00:00";
  dict_str := show
|}.

(** The database is compared, then the scan fails. *)
Lemma check_scan_failure_witness :
  (main (RT := rtScanFails) ActCheck cfgB worldB).1
    = Traceback (Exn OtherError "not a directory") ∧
  added (main (RT := rtScanFails) ActCheck cfgB worldB).2 = [].
Proof.
  destruct (check_scan_failure (RT := rtScanFails) cfgB worldB
              (show (JDict dictB)) dictB (Exn OtherError "not a directory"))
    as (H1 & _ & H2 & _); [vm_compute; reflexivity..| |vm_compute; reflexivity|].
  - apply records_checked_usable. vm_compute. reflexivity.
  - by split.
Defined.

(** The database file may not be renamed. *)
Lemma init_rename_refused_witness :
  ∃ e, (main (RT := rtB) ActInit cfgB
          (World (w_fs worldB) ∅ ∅ ∅ {["/db.json"]} (secs 1000))).1 = Traceback e ∧
       exn_cls e = OSError ∧
       st_world (main (RT := rtB) ActInit cfgB
                   (World (w_fs worldB) ∅ ∅ ∅ {["/db.json"]} (secs 1000))).2
       = World (w_fs worldB) ∅ ∅ ∅ {["/db.json"]} (secs 1000).
Proof.
  apply (init_rename_refused (RT := rtB) cfgB
           (World (w_fs worldB) ∅ ∅ ∅ {["/db.json"]} (secs 1000))
           (File (secs 5) (show (JDict dictB)))).
  - vm_compute. reflexivity.
  - computed.
  - computed.
Defined.

(** [init] on the tree of [worldB] leaves [tempfiledata.txt] with the text
    of the two records it stored. *)
Lemma init_leaves_scratch_file_witness :
  f_body <$> (w_fs (st_world (init (RT := rtB) (start cfgB worldB)).2)
                !! tempfile)
  = Some (show (JDict (snapshot [("/d/a.txt", 200); ("/d/b.txt", 7)]%positive))).
Proof.
  destruct (init_leaves_scratch_file (RT := rtB) cfgB worldB
              (init (RT := rtB) (start cfgB worldB)).2)
    as (s1 & names & data & Hb & Hscan & Hcollect & Hbody).
  - vm_compute. reflexivity.
  - computed.
  - vm_compute in Hb. injection Hb as <-.
    vm_compute in Hscan. injection Hscan as <-.
    vm_compute in Hcollect. injection Hcollect as <-.
    rewrite Hbody. vm_compute. reflexivity.
Defined.

(** Storing [dictK] over the database file of [worldB] and loading it. *)
Lemma store_then_load_witness :
  ((init_store (RT := rtK) "/db.json" dictK ;;;
    load_database (RT := rtK) "/db.json") (start cfgB worldB)).1
  = Return (JDict dictK).
Proof.
  refine (eq_trans
            (proj1 (store_then_load (RT := rtK) "/db.json" dictK
                      (start cfgB worldB) _ _)) _).
  - computed.
  - computed.
  - vm_compute. reflexivity.
Defined.

End MoreExamples.
